(** * projectcal: the date normalizer and its plumbing (app.py)

    A shallow embedding of [parse_date], [find_column] and of the start-date
    and D-day derivations of app.py, together with the parts of the Python
    and pandas libraries they call:

    - a Python [str] is a sequence of Unicode code points ([list Z]);
    - a pandas [Timestamp] is a signed 64-bit count of nanoseconds since
      1970-01-01T00:00 (the nanosecond resolution of pandas 1.x and 2.x),
      the smallest 64-bit value being reserved for [NaT];
    - an exception is an explicit outcome ([Raise]), [try]/[except] is a
      match on it. *)

From Stdlib Require Import ZArith List Bool Lia String Ascii.
Import ListNotations.
Local Open Scope Z_scope.

(** ** Text *)

Module Text.

(** A character is its code point. *)
Abbreviation char := Z (only parsing).
Abbreviation str := (list Z) (only parsing).

(** Source literals are written as UTF-8 text and decoded to code points. *)
Fixpoint decode (bs : list Z) : str :=
  match bs with
  | [] => []
  | b0 :: r0 =>
    if b0 <? 128 then b0 :: decode r0 else
    match r0 with
    | [] => []
    | b1 :: r1 =>
      if b0 <? 224 then ((b0 - 192) * 64 + (b1 - 128)) :: decode r1 else
      match r1 with
      | [] => []
      | b2 :: r2 =>
        if b0 <? 240
        then ((b0 - 224) * 4096 + (b1 - 128) * 64 + (b2 - 128)) :: decode r2
        else
          match r2 with
          | [] => []
          | b3 :: r3 =>
            ((b0 - 240) * 262144 + (b1 - 128) * 4096
             + (b2 - 128) * 64 + (b3 - 128)) :: decode r3
          end
      end
    end
  end.

Definition u (s : string) : str :=
  decode (map (fun a => Z.of_N (N_of_ascii a)) (list_ascii_of_string s)).

(** [str.isspace]: the characters removed by [str.strip()] and matched by
    the regular expression class [\s]. *)
Definition is_space (c : char) : bool :=
  ((9 <=? c) && (c <=? 13)) || ((28 <=? c) && (c <=? 32))
  || (c =? 133) || (c =? 160) || (c =? 5760)
  || ((8192 <=? c) && (c <=? 8202))
  || (c =? 8232) || (c =? 8233) || (c =? 8239) || (c =? 8287)
  || (c =? 12288).

(** The decimal digits of the Unicode database (category Nd, Unicode 14):
    each entry is the code point of the digit zero of a block of ten. The
    class [\d] of a [str] pattern matches them all, and [int] reads them. *)
Definition nd_blocks : list Z :=
  [48; 1632; 1776; 1984; 2406; 2534; 2662; 2790; 2918; 3046; 3174; 3302;
   3430; 3558; 3664; 3792; 3872; 4160; 4240; 6112; 6160; 6470; 6608; 6784;
   6800; 6992; 7088; 7232; 7248; 42528; 43216; 43264; 43472; 43504; 43600;
   44016; 65296; 66720; 68912; 69734; 69872; 69942; 70096; 70384; 70736;
   70864; 71248; 71360; 71472; 71904; 72016; 72784; 73040; 73120; 92768;
   92864; 93008; 120782; 120792; 120802; 120812; 120822; 123200; 123632;
   125264; 130032].

Definition digit_value (c : char) : option Z :=
  match find (fun b => (b <=? c) && (c <? b + 10)) nd_blocks with
  | Some b => Some (c - b)
  | None => None
  end.

Definition is_digit (c : char) : bool :=
  match digit_value c with Some _ => true | None => false end.

(** The value [int] gives to a character that [\d] matched. *)
Definition dv (c : char) : Z :=
  match digit_value c with Some v => v | None => 0 end.

Definition between (lo hi : Z) (c : char) : bool := (lo <=? c) && (c <=? hi).

Fixpoint str_eqb (s t : str) : bool :=
  match s, t with
  | [], [] => true
  | a :: s', b :: t' => (a =? b) && str_eqb s' t'
  | _, _ => false
  end.

Fixpoint starts_with (p s : str) : bool :=
  match p, s with
  | [], _ => true
  | a :: p', b :: s' => (a =? b) && starts_with p' s'
  | _ :: _, [] => false
  end.

(** [p in s] on strings. *)
Fixpoint contains (p s : str) : bool :=
  starts_with p s ||
  match s with
  | [] => false
  | _ :: s' => contains p s'
  end.

Fixpoint lstrip (s : str) : str :=
  match s with
  | c :: s' => if is_space c then lstrip s' else s
  | [] => []
  end.

Definition rstrip (s : str) : str := rev (lstrip (rev s)).

Definition strip (s : str) : str := rstrip (lstrip s).

(** [s.replace(old, new)] for a non-empty [old]: occurrences are taken
    from the left and do not overlap. The recursion runs on the text, with
    a count of characters still to skip after an occurrence. *)
Fixpoint replace_from (old new : str) (skip : nat) (s : str) : str :=
  match s with
  | [] => []
  | c :: s' =>
    match skip with
    | S k => replace_from old new k s'
    | O =>
      if starts_with old s
      then new ++ replace_from old new (Nat.pred (List.length old)) s'
      else c :: replace_from old new O s'
    end
  end.

Definition replace (s old new : str) : str := replace_from old new O s.

(** Decimal rendering, as [str(n)] and the f-string [{n}] give it. *)
Fixpoint digits_fuel (fuel : nat) (n : Z) (acc : str) : str :=
  match fuel with
  | O => acc
  | S k =>
    let acc' := (48 + n mod 10) :: acc in
    if n <? 10 then acc' else digits_fuel k (n / 10) acc'
  end.

Definition str_of_int (n : Z) : str :=
  if n <? 0
  then 45 :: digits_fuel (S (Z.to_nat (Z.log2 (- n)))) (- n) []
  else digits_fuel (S (Z.to_nat (Z.log2 n))) n [].

(** Zero-padded fields of [strftime]. *)
Definition d2 (n : Z) : str := [48 + n / 10; 48 + n mod 10].
Definition d4 (n : Z) : str :=
  [48 + n / 1000; 48 + (n / 100) mod 10; 48 + (n / 10) mod 10; 48 + n mod 10].

End Text.
Export Text.

(** ** Outcomes: values and exceptions *)

(** The exceptions the modelled calls raise. [OutOfBoundsDatetime] and
    [OutOfBoundsTimedelta] are subclasses of [ValueError]: [except
    ValueError] catches them all. *)
Inductive exn := ValueError | OutOfBoundsDatetime | OutOfBoundsTimedelta.

Definition isinstance_ValueError (e : exn) : bool :=
  match e with
  | ValueError | OutOfBoundsDatetime | OutOfBoundsTimedelta => true
  end.

Inductive outcome (A : Type) :=
| Ret (a : A)
| Raise (e : exn).
Arguments Ret {A} a.
Arguments Raise {A} e.

Definition bind {A B} (x : outcome A) (f : A -> outcome B) : outcome B :=
  match x with
  | Ret a => f a
  | Raise e => Raise e
  end.

Notation "x <- c ;; k" := (bind c (fun x => k))
  (at level 61, c at next level, right associativity).

(** ** Calendar and timestamps *)

Module Calendar.

Definition is_leapyear (y : Z) : bool :=
  (y mod 4 =? 0) && (negb (y mod 100 =? 0) || (y mod 400 =? 0)).

(** The lengths of the months of a common year or of a leap year. *)
Definition month_length (leap : bool) (m : Z) : Z :=
  match m with
  | 1 | 3 | 5 | 7 | 8 | 10 | 12 => 31
  | 4 | 6 | 9 | 11 => 30
  | 2 => if leap then 29 else 28
  | _ => 0
  end.

Definition days_in_month (y m : Z) : Z := month_length (is_leapyear y) m.

(** Days of the months [1 .. n]. *)
Fixpoint month_days_upto (leap : bool) (n : nat) : Z :=
  match n with
  | O => 0
  | S k => month_days_upto leap k + month_length leap (Z.of_nat n)
  end.

Definition days_before_month (y m : Z) : Z :=
  month_days_upto (is_leapyear y) (Z.to_nat (m - 1)).

(** Days from 1970-01-01 to January 1 of year [y] (proleptic Gregorian). *)
Definition days_before_year (y : Z) : Z :=
  365 * (y - 1970) + (y - 1969) / 4 - (y - 1901) / 100 + (y - 1601) / 400.

Definition days_from_civil (y m d : Z) : Z :=
  days_before_year y + days_before_month y m + (d - 1).

(** The calendar date of a day number, for [strftime]. *)
Definition civil_from_days (n : Z) : Z * Z * Z :=
  let z := n + 719468 in
  let era := z / 146097 in
  let doe := z - era * 146097 in
  let yoe := (doe - doe / 1460 + doe / 36524 - doe / 146096) / 365 in
  let doy := doe - (365 * yoe + yoe / 4 - yoe / 100) in
  let mp := (5 * doy + 2) / 153 in
  let d := doy - (153 * mp + 2) / 5 + 1 in
  let m := if mp <? 10 then mp + 3 else mp - 9 in
  let y := yoe + era * 400 + (if m <=? 2 then 1 else 0) in
  (y, m, d).

Definition valid_date (y m d : Z) : Prop :=
  1 <= m <= 12 /\ 1 <= d <= days_in_month y m.

Definition valid_dateb (y m d : Z) : bool :=
  (1 <=? m) && (m <=? 12) && (1 <=? d) && (d <=? days_in_month y m).

(** The calendar day before a date. *)
Definition prev_day (y m d : Z) : Z * Z * Z :=
  if 1 <? d then (y, m, d - 1)
  else if 1 <? m then (y, m - 1, days_in_month y (m - 1))
  else (y - 1, 12, 31).

End Calendar.
Export Calendar.

Module Timestamp.

Definition ns_per_second : Z := 1000000000.
Definition ns_per_day : Z := 86400 * ns_per_second.

(** [Timestamp.min.value] and [Timestamp.max.value]. *)
Definition ts_min : Z := - 9223372036854775807.
Definition ts_max : Z := 9223372036854775807.

Definition in_bounds (t : Z) : bool := (ts_min <=? t) && (t <=? ts_max).

(** The nanosecond count of a calendar date and time of day. *)
Definition stamp (y m d h mi s : Z) : Z :=
  (days_from_civil y m d * 86400 + h * 3600 + mi * 60 + s) * ns_per_second.

(** A resolved cell: a timestamp or [NaT]. *)
Inductive datetime :=
| Ts (ns : Z)
| NaT.

(** [timedelta(days=d, hours=h)] in nanoseconds. *)
Definition timedelta (days hours : Z) : Z :=
  days * ns_per_day + hours * 3600 * ns_per_second.

(** [Timestamp + timedelta] and [Timestamp - timedelta]: 64-bit arithmetic
    that raises when the result leaves the representable range. *)
Definition ts_add (t delta : Z) : outcome Z :=
  if in_bounds (t + delta) then Ret (t + delta) else Raise OutOfBoundsDatetime.

Definition ts_sub (t delta : Z) : outcome Z :=
  if in_bounds (t - delta) then Ret (t - delta) else Raise OutOfBoundsDatetime.

(** [Timestamp.hour]. *)
Definition hour_of (t : Z) : Z := (t / (3600 * ns_per_second)) mod 24.

(** [Timestamp.strftime('%Y-%m-%d')]. *)
Definition strftime_ymd (t : Z) : str :=
  let '(y, m, d) := civil_from_days (t / ns_per_day) in
  d4 y ++ [45] ++ d2 m ++ [45] ++ d2 d.

End Timestamp.
Export Timestamp.

(** ** [pd.to_datetime]

    [pd.to_datetime(s, format=fmt)] follows [strptime]: the format is turned
    into a regular expression (one group per directive, a run of white space
    becoming [\s+]), the expression is matched at the start of the text with
    the usual leftmost-alternative backtracking, text left over after the
    match is an error, and so are a day the month does not have and a
    moment outside the nanosecond range. The locale is the C locale
    ([%p] reads [am] or [pm], in either case). *)

Module Strptime.

Inductive directive :=
| pY | pm | pd | pH | pI | pM | pS | pp
| ws
| lit (c : char)
| bad.

Definition directive_of (c : char) : directive :=
  match c with
  | 89 => pY | 109 => pm | 100 => pd | 72 => pH | 73 => pI
  | 77 => pM | 83 => pS | 112 => pp
  | 37 => lit 37
  | _ => bad
  end.

Fixpoint compile_format (f : str) : list directive :=
  match f with
  | [] => []
  | c :: f' =>
    if c =? 37 then
      match f' with
      | x :: f'' => directive_of x :: compile_format f''
      | [] => [bad]
      end
    else if is_space c then
      match f' with
      | c' :: _ => if is_space c' then compile_format f'
                   else ws :: compile_format f'
      | [] => [ws]
      end
    else lit c :: compile_format f'
  end.

Record fields := mkFields {
  fY : Z; fm : Z; fd : Z;
  fH : option Z; fI : option Z;
  fM : Z; fS : Z;
  fp : option bool  (* [Some true] is pm *)
}.

Definition no_fields : fields := mkFields 1900 1 1 None None 0 0 None.

Definition set_field (d : directive) (v : Z) (f : fields) : fields :=
  match d with
  | pY => mkFields v (fm f) (fd f) (fH f) (fI f) (fM f) (fS f) (fp f)
  | pm => mkFields (fY f) v (fd f) (fH f) (fI f) (fM f) (fS f) (fp f)
  | pd => mkFields (fY f) (fm f) v (fH f) (fI f) (fM f) (fS f) (fp f)
  | pH => mkFields (fY f) (fm f) (fd f) (Some v) (fI f) (fM f) (fS f) (fp f)
  | pI => mkFields (fY f) (fm f) (fd f) (fH f) (Some v) (fM f) (fS f) (fp f)
  | pM => mkFields (fY f) (fm f) (fd f) (fH f) (fI f) v (fS f) (fp f)
  | pS => mkFields (fY f) (fm f) (fd f) (fH f) (fI f) (fM f) v (fp f)
  | pp => mkFields (fY f) (fm f) (fd f) (fH f) (fI f) (fM f) (fS f)
                   (Some (v =? 1))
  | _ => f
  end.

Section Regex.

Context {R : Type}.

(** Ordered alternation: the second branch is tried when the first one, with
    everything that follows it, fails. *)
Definition alt (x y : option R) : option R :=
  match x with
  | Some _ => x
  | None => y
  end.

Definition one (p : char -> bool) (s : str) (k : Z -> str -> option R)
  : option R :=
  match s with
  | a :: t => if p a then k (dv a) t else None
  | [] => None
  end.

Definition two (p q : char -> bool) (s : str) (k : Z -> str -> option R)
  : option R :=
  match s with
  | a :: b :: t => if p a && q b then k (10 * dv a + dv b) t else None
  | _ => None
  end.

(** [\d\d\d\d] *)
Definition re_Y (s : str) (k : Z -> str -> option R) : option R :=
  match s with
  | a :: b :: c :: d :: t =>
    if is_digit a && is_digit b && is_digit c && is_digit d
    then k (1000 * dv a + 100 * dv b + 10 * dv c + dv d) t
    else None
  | _ => None
  end.

(** [1[0-2]|0[1-9]|[1-9]], for [%m] and [%I] *)
Definition re_m (s : str) (k : Z -> str -> option R) : option R :=
  alt (two (Z.eqb 49) (between 48 50) s k)
 (alt (two (Z.eqb 48) (between 49 57) s k)
      (one (between 49 57) s k)).

(** [3[0-1]|[1-2]\d|0[1-9]|[1-9]| [1-9]] *)
Definition re_d (s : str) (k : Z -> str -> option R) : option R :=
  alt (two (Z.eqb 51) (between 48 49) s k)
 (alt (two (between 49 50) is_digit s k)
 (alt (two (Z.eqb 48) (between 49 57) s k)
 (alt (one (between 49 57) s k)
      (match s with
       | 32 :: t => one (between 49 57) t k
       | _ => None
       end)))).

(** [2[0-3]|[0-1]\d|\d] *)
Definition re_H (s : str) (k : Z -> str -> option R) : option R :=
  alt (two (Z.eqb 50) (between 48 51) s k)
 (alt (two (between 48 49) is_digit s k)
      (one is_digit s k)).

(** [[0-5]\d|\d] *)
Definition re_M (s : str) (k : Z -> str -> option R) : option R :=
  alt (two (between 48 53) is_digit s k)
      (one is_digit s k).

(** [6[0-1]|[0-5]\d|\d] *)
Definition re_S (s : str) (k : Z -> str -> option R) : option R :=
  alt (two (Z.eqb 54) (between 48 49) s k)
 (alt (two (between 48 53) is_digit s k)
      (one is_digit s k)).

(** [am|pm], letters in either case; the value is 0 for am, 1 for pm. *)
Definition re_p (s : str) (k : Z -> str -> option R) : option R :=
  match s with
  | a :: b :: t =>
    if ((b =? 109) || (b =? 77)) then
      if (a =? 97) || (a =? 65) then k 0 t
      else if (a =? 112) || (a =? 80) then k 1 t
      else None
    else None
  | _ => None
  end.

(** [\s+], longest run first. *)
Fixpoint ws_star (s : str) (k : str -> option R) : option R :=
  match s with
  | c :: t => if is_space c then alt (ws_star t k) (k s) else k s
  | [] => k s
  end.

Definition ws_plus (s : str) (k : str -> option R) : option R :=
  match s with
  | c :: t => if is_space c then ws_star t k else None
  | [] => None
  end.

End Regex.

(** The match of the compiled format at the start of [s]: the fields read
    and the text left over. *)
Fixpoint run (fmt : list directive) (f : fields) (s : str)
  : option (fields * str) :=
  match fmt with
  | [] => Some (f, s)
  | d :: fmt' =>
    let k := fun v t => run fmt' (set_field d v f) t in
    match d with
    | pY => re_Y s k
    | pm | pI => re_m s k
    | pd => re_d s k
    | pH => re_H s k
    | pM => re_M s k
    | pS => re_S s k
    | pp => re_p s k
    | ws => ws_plus s (run fmt' f)
    | lit c =>
      match s with
      | a :: t => if a =? c then run fmt' f t else None
      | [] => None
      end
    | bad => None
    end
  end.

(** The hour of a 12-hour field: without a meridiem, or with am, 12 reads
    as 0; with pm, every hour but 12 is moved to the afternoon. *)
Definition hour12 (i : Z) (p : option bool) : Z :=
  match p with
  | Some true => if i =? 12 then i else i + 12
  | _ => if i =? 12 then 0 else i
  end.

Definition hour_field (f : fields) : Z :=
  match fI f with
  | Some i => hour12 i (fp f)
  | None => match fH f with Some h => h | None => 0 end
  end.

(** Texts [to_datetime] reads as missing instead of parsing them. *)
Definition nat_strings : list str :=
  [[]; u "NaT"; u "nat"; u "NAT"; u "nan"; u "NaN"; u "NAN"].

Definition build (y m d h mi s : Z) : outcome datetime :=
  if negb (valid_dateb y m d) then Raise ValueError
  else if 60 <=? s then Raise ValueError
  else if in_bounds (stamp y m d h mi s) then Ret (Ts (stamp y m d h mi s))
  else Raise OutOfBoundsDatetime.

Definition to_datetime_format (fmt s : str) : outcome datetime :=
  if existsb (str_eqb s) nat_strings then Ret NaT else
  match run (compile_format fmt) no_fields s with
  | Some (f, []) => build (fY f) (fm f) (fd f) (hour_field f) (fM f) (fS f)
  | _ => Raise ValueError
  end.

(** [pd.to_datetime(s)] without a format, on the texts the program gives
    it: ten characters matched by [\d{4}-\d{2}-\d{2}]. *)
Definition to_datetime (s : str) : outcome datetime :=
  match s with
  | [a; b; c; d; _; e; f; _; g; h] =>
    build (1000 * dv a + 100 * dv b + 10 * dv c + dv d)
          (10 * dv e + dv f) (10 * dv g + dv h) 0 0 0
  | _ => Raise ValueError
  end.

End Strptime.
Export Strptime.

(** ** The program *)

(** A cell of the loaded table: a text, or missing (NaN). *)
Inductive cell :=
| Missing
| Str (s : str).

(** [re.search]: the leftmost position at which the pattern matches. *)
Fixpoint search {A : Type} (at_start : str -> option A) (s : str)
  : option A :=
  match at_start s with
  | Some g => Some g
  | None =>
    match s with
    | [] => None
    | _ :: t => search at_start t
    end
  end.

(** [\d{4}-\d{2}-\d{2}] and [\d{4}\.\d{2}\.\d{2}] at the start of a text,
    [sep] being the separator; the result is the matched group. *)
Definition date_at (sep : char) (s : str) : option str :=
  match s with
  | a :: b :: c :: d :: p :: e :: f :: q :: g :: h :: _ =>
    if is_digit a && is_digit b && is_digit c && is_digit d && (p =? sep)
       && is_digit e && is_digit f && (q =? sep)
       && is_digit g && is_digit h
    then Some [a; b; c; d; p; e; f; q; g; h]
    else None
  | _ => None
  end.

Inductive meridiem := AM | PM.

Definition marker (a : meridiem) : str :=
  match a with
  | AM => u "오전"
  | PM => u "오후"
  end.

(** [(오전|오후)] at the start of a text. *)
Definition am_pm_at (s : str) : option meridiem :=
  if starts_with (marker AM) s then Some AM
  else if starts_with (marker PM) s then Some PM
  else None.

(** [^\d{4}$] and [^\d{4}\.\d{2}$]; [$] also matches before a final line
    feed. *)
Definition at_end (s : str) : bool :=
  match s with
  | [] | [10] => true
  | _ => false
  end.

Definition is_year (s : str) : bool :=
  match s with
  | a :: b :: c :: d :: t =>
    is_digit a && is_digit b && is_digit c && is_digit d && at_end t
  | _ => false
  end.

Definition is_year_month (s : str) : bool :=
  match s with
  | a :: b :: c :: d :: p :: e :: f :: t =>
    is_digit a && is_digit b && is_digit c && is_digit d && (p =? 46)
    && is_digit e && is_digit f && at_end t
  | _ => false
  end.

Definition sentinels : list str :=
  [u "사전규격"; u "견적서 요청"; u "실행중"].

Definition date_formats : list str :=
  [u "%Y-%m-%d";
   u "%Y.%m.%d";
   u "%Y-%m-%d %H:%M";
   u "%Y.%m.%d %H:%M";
   u "%Y-%m-%d %p %I:%M";
   u "%Y.%m.%d %p %I:%M";
   u "%Y-%m-%d %H:%M:%S";
   u "%Y.%m.%d %H:%M:%S";
   u "%Y. %m. %d. %H:%M";
   u "%Y.%m.%d %H:%M";
   u "%Y.%m.%d.%H"].

(** The loop over [date_formats]: the first format that parses wins, a
    [ValueError] moves on to the next one, the end of the list is [NaT]. *)
Fixpoint try_formats (fmts : list str) (date_str : str) : outcome datetime :=
  match fmts with
  | [] => Ret NaT
  | fmt :: rest =>
    match to_datetime_format fmt date_str with
    | Ret dt => Ret dt
    | Raise e =>
      if isinstance_ValueError e then try_formats rest date_str
      else Raise e
    end
  end.

(** Lines 75-101 of [parse_date]: the bare year, the bare year and month,
    and the format battery. Nothing is caught in the first two. *)
Definition later_rules (date_str : str) : outcome datetime :=
  if is_year date_str then to_datetime_format (u "%Y") date_str
  else if is_year_month date_str then to_datetime_format (u "%Y.%m") date_str
  else try_formats date_formats date_str.

(** Lines 48-51: the result when the rule returns, [None] when control
    goes on. *)
Definition before_rule (date_str : str) : option (outcome datetime) :=
  if contains (u "이전") date_str then
    match search (date_at 45) date_str with
    | Some date_part =>
      Some (dt <- to_datetime date_part ;;
            match dt with
            | Ts t => r <- ts_sub t (timedelta 1 0) ;; Ret (Ts r)
            | NaT => Ret NaT
            end)
    | None => None
    end
  else None.

(** Lines 53-56. *)
Definition event_rule (date_str : str) : option (outcome datetime) :=
  if contains (u "행사") date_str then
    match search (date_at 46) date_str with
    | Some date_part => Some (to_datetime (replace date_part [46] [45]))
    | None => None
    end
  else None.

(** The [try] block of lines 62-71, on the text without its marker. *)
Definition meridiem_attempt (am_pm : meridiem) (date_str : str)
  : outcome datetime :=
  dt <- to_datetime_format (u "%Y.%m.%d %I:%M") date_str ;;
  match dt with
  | NaT => Ret NaT
  | Ts t =>
    match am_pm with
    | AM =>
      if hour_of t =? 12
      then r <- ts_sub t (timedelta 0 12) ;; Ret (Ts r)
      else Ret (Ts t)
    | PM =>
      if negb (hour_of t =? 12)
      then r <- ts_add t (timedelta 0 12) ;; Ret (Ts r)
      else Ret (Ts t)
    end
  end.

(** The text rule 5 and the rules after it work on: every occurrence of
    the marker removed, then stripped. *)
Definition without_marker (am_pm : meridiem) (date_str : str) : str :=
  strip (replace date_str (marker am_pm) []).

Definition parse_date (date_str : cell) : outcome datetime :=
  match date_str with
  | Missing => Ret NaT
  | Str original =>
    let date_str := strip original in
    if existsb (str_eqb date_str) sentinels then Ret NaT else
    match before_rule date_str with
    | Some r => r
    | None =>
    match event_rule date_str with
    | Some r => r
    | None =>
    match search am_pm_at date_str with
    | Some am_pm =>
      let date_str := without_marker am_pm date_str in
      match meridiem_attempt am_pm date_str with
      | Ret dt => Ret dt
      | Raise e =>
        if isinstance_ValueError e then later_rules date_str
        else Raise e
      end
    | None => later_rules date_str
    end
    end
    end
  end.

(** [find_column]. The case mapping of [str.lower] (a table of the Unicode
    database) is a parameter; [str(col)] of a missing label is [nan]. *)
Section ColumnResolver.

Variable lower : str -> str.

Definition label_text (col : cell) : str :=
  match col with
  | Missing => u "nan"
  | Str s => s
  end.

Definition mentions (keywords : list str) (col : cell) : bool :=
  existsb (fun keyword => contains (lower keyword) (lower (label_text col)))
          keywords.

Fixpoint find_column (columns : list cell) (keywords : list str)
  : option cell :=
  match columns with
  | [] => None
  | col :: rest =>
    if mentions keywords col then Some col else find_column rest keywords
  end.

End ColumnResolver.

(** Lines 129-132, on the three cells of a row the chart uses. *)
Record row := mkRow {
  business_name : cell;
  end_date : cell;
  manager : cell
}.

Record resolved_row := mkResolved {
  source : row;
  finish : datetime;
  start : datetime
}.

Definition notna (c : cell) : bool :=
  match c with
  | Missing => false
  | Str _ => true
  end.

Definition resolved (d : datetime) : bool :=
  match d with
  | Ts _ => true
  | NaT => false
  end.

Fixpoint mapM {A B : Type} (f : A -> outcome B) (l : list A)
  : outcome (list B) :=
  match l with
  | [] => Ret []
  | a :: l' => b <- f a ;; bs <- mapM f l' ;; Ret (b :: bs)
  end.

(** [column - timedelta(days=14)], element by element; [NaT] stays. *)
Definition minus_lookahead (d : datetime) : outcome datetime :=
  match d with
  | NaT => Ret NaT
  | Ts t => r <- ts_sub t (timedelta 14 0) ;; Ret (Ts r)
  end.

Definition derive_rows (rows : list row) : outcome (list resolved_row) :=
  let kept :=
    filter (fun r => notna (business_name r) && notna (end_date r)) rows in
  ends <- mapM (fun r => parse_date (end_date r)) kept ;;
  starts <- mapM minus_lookahead ends ;;
  Ret (filter (fun r => resolved (start r) && resolved (finish r))
              (map (fun '(r, e, s) => mkResolved r e s)
                   (combine (combine kept ends) starts))).

(** The [Start] and [Finish] texts of a task (lines 143-144). *)
Definition date_text (d : datetime) : str :=
  match d with
  | Ts t => strftime_ymd t
  | NaT => u "NaT"
  end.

(** Lines 150-151: [now] is the value of [datetime.now()]. *)
Definition d_day (end_ts now : Z) : outcome Z :=
  if in_bounds (end_ts - now) then Ret ((end_ts - now) / ns_per_day)
  else Raise OutOfBoundsTimedelta.

Definition d_day_text (end_ts now : Z) : outcome str :=
  n <- d_day end_ts now ;;
  Ret (if 0 <=? n then u "D-" ++ str_of_int n
       else u "D+" ++ str_of_int (- n)).

(** ** Loading the table *)

(** Lines 23-32 of [load_data], on the table [read_csv] gives with
    [header=None]: rows of cells, a cell standing for its text
    ([astype(str)], which is [nan] for a missing one). The first row with a
    cell that contains 사업명 gives the column labels, the rows after it are
    the data; without such a row the result is the empty frame. *)
Record frame := mkFrame {
  columns : list cell;
  body : list (list cell)
}.

Definition empty_frame : frame := mkFrame [] [].

Definition names_business (r : list cell) : bool :=
  existsb (fun c => contains (u "사업명") (label_text c)) r.

Fixpoint header_split (raw : list (list cell))
  : option (list cell * list (list cell)) :=
  match raw with
  | [] => None
  | r :: rest => if names_business r then Some (r, rest) else header_split rest
  end.

Definition load_data (raw : list (list cell)) : frame :=
  match header_split raw with
  | Some (header, rest) => mkFrame header rest
  | None => empty_frame
  end.

(** [df.empty]: no column or no row. *)
Definition is_empty (df : frame) : bool :=
  match columns df, body df with
  | _ :: _, _ :: _ => false
  | _, _ => true
  end.

(** The rows the chart shows: name and end date present, end date
    resolved. *)
Definition charted (r : row) : bool :=
  notna (business_name r) && notna (end_date r) &&
  match parse_date (end_date r) with
  | Ret (Ts _) => true
  | _ => false
  end.

(** ** Canonical texts *)

(** An ASCII digit. *)
Definition digitc (c : char) : Prop := 48 <= c <= 57.

(** [YYYY-MM-DD], [YYYY.MM.DD] and [hh:mm], every field zero-padded. *)
Definition iso_date (y m d : Z) : str := d4 y ++ [45] ++ d2 m ++ [45] ++ d2 d.
Definition dotted_date (y m d : Z) : str := d4 y ++ [46] ++ d2 m ++ [46] ++ d2 d.
Definition clock (h mi : Z) : str := d2 h ++ [58] ++ d2 mi.

(** Every moment of the day is a timestamp. *)
Definition representable_day (y m d : Z) : Prop :=
  in_bounds (stamp y m d 0 0 0) = true /\
  in_bounds (stamp y m d 23 59 59) = true.

(** The text the rules after rule 5 work on: the stripped text, without
    the meridiem marker when [re.search] finds one. *)
Definition later_text (date_str : str) : str :=
  match search am_pm_at date_str with
  | Some a => without_marker a date_str
  | None => date_str
  end.

(** The number a text of ASCII digits writes. *)
Definition int_of_digits (s : str) : Z :=
  fold_left (fun acc c => 10 * acc + (c - 48)) s 0.

(** Midnight of the calendar day before a date. *)
Definition midnight_before (y m d : Z) : Z :=
  let '(y', m', d') := prev_day y m d in stamp y' m' d' 0 0 0.

(** * Properties *)

(** ** Text lemmas *)

Lemma str_eqb_eq (s t : str) : str_eqb s t = true <-> s = t.
Proof.
  revert t; induction s as [|a s IH]; intros [|b t]; simpl;
    try (split; [discriminate | discriminate]); try tauto.
  rewrite andb_true_iff, Z.eqb_eq, IH.
  split; [intros [-> ->]; reflexivity | intros H; inversion H; auto].
Qed.

Lemma str_eqb_refl (s : str) : str_eqb s s = true.
Proof. apply str_eqb_eq; reflexivity. Qed.

Lemma starts_with_spec (p s : str) :
  starts_with p s = true <-> exists t, s = p ++ t.
Proof.
  revert s; induction p as [|a p IH]; intros s; simpl.
  - split; [intros _; exists s; reflexivity | reflexivity].
  - destruct s as [|b s].
    + split; [discriminate | intros [t H]; discriminate].
    + rewrite andb_true_iff, Z.eqb_eq, IH. split.
      * intros [-> [t ->]]. exists t; reflexivity.
      * intros [t H]; inversion H; subst. split; [reflexivity | exists t; reflexivity].
Qed.

(** [contains] is the substring test of [in]. *)
Lemma contains_spec (p s : str) :
  contains p s = true <-> exists a b, s = a ++ p ++ b.
Proof.
  induction s as [|c s IH].
  - simpl. rewrite orb_false_r, starts_with_spec. split.
    + intros [t H]. exists [], t. exact H.
    + intros [a [b H]]. destruct a; [exists b; exact H | discriminate].
  - simpl. rewrite orb_true_iff, starts_with_spec, IH. split.
    + intros [[t H] | [a [b H]]].
      * exists [], t. exact H.
      * exists (c :: a), b. simpl; rewrite H; reflexivity.
    + intros [[|x a] [b H]].
      * left. exists b. exact H.
      * right. inversion H; subst. exists a, b; reflexivity.
Qed.

Lemma contains_absent (c : char) (p s : str) :
  ~ In c s -> contains (c :: p) s = false.
Proof.
  induction s as [|x s IH]; intros Hn; simpl.
  - reflexivity.
  - assert (c <> x) by (intros ->; apply Hn; left; reflexivity).
    assert ((x =? c) = false) as E by (apply Z.eqb_neq; congruence).
    rewrite Z.eqb_sym, E. simpl. apply IH. intros Hi; apply Hn; right; exact Hi.
Qed.

(** ** Rules 1 and 2: missing cells and sentinel keywords *)

(** C4, the claim as written fails: a cell that contains the sentinel
    실행중 next to a before-marker and a date is not a sentinel for the
    membership test of line 45, and the before rule turns it into the day
    before the embedded date. *)
Lemma sentinel_substring_resolves :
  contains (u "실행중") (u "실행중 이전 2024-03-15") = true /\
  In (u "실행중") sentinels /\
  parse_date (Str (u "실행중 이전 2024-03-15"))
  = Ret (Ts (stamp 2024 3 14 0 0 0)).
Proof.
  split; [reflexivity | split; [right; right; left; reflexivity|]].
  vm_compute. reflexivity.
Qed.

(** C4, amended: a cell whose text, once stripped, is equal to one of the
    sentinel keywords is unresolved, whatever the later rules would make of
    it. *)
Theorem sentinel_exact_unresolved (s : str) :
  In (strip s) sentinels -> parse_date (Str s) = Ret NaT.
Proof.
  intros Hin. unfold parse_date.
  assert (existsb (str_eqb (strip s)) sentinels = true) as ->; [|reflexivity].
  apply existsb_exists. exists (strip s). split; [exact Hin|].
  apply str_eqb_refl.
Qed.

Lemma sentinel_exact_unresolved_witness :
  parse_date (Str (u "  견적서 요청 ")) = Ret NaT.
Proof.
  apply sentinel_exact_unresolved.
  right; left. vm_compute. reflexivity.
Defined.

(** ** Totality *)

(** C1: the bare year-month rule calls [to_datetime] outside any [try];
    on a month that does not exist the [ValueError] leaves [parse_date],
    while the same defect inside the format battery is caught and gives
    [NaT]. *)
Theorem parse_date_raises_on_month_13 :
  parse_date (Str (u "2024.13")) = Raise ValueError /\
  parse_date (Str (u "2024.13.01")) = Ret NaT.
Proof. split; vm_compute; reflexivity. Qed.

(** ** D-day annotation *)

(** C7: an end date that is today (midnight of 2024-03-15, seen at 10:00
    of the same day) is labelled as one day in the past, and tomorrow's
    end date as D-0. *)
Theorem d_day_text_end_today :
  d_day_text (stamp 2024 3 15 0 0 0) (stamp 2024 3 15 10 0 0)
  = Ret (u "D+1") /\
  d_day_text (stamp 2024 3 16 0 0 0) (stamp 2024 3 15 10 0 0)
  = Ret (u "D-0").
Proof. split; vm_compute; reflexivity. Qed.

(** ** Column resolver *)

Section ColumnResolverFacts.

Variable lower : str -> str.

Lemma mentions_spec (keywords : list str) (col : cell) :
  mentions lower keywords col = true <->
  exists keyword a b,
    In keyword keywords /\ lower (label_text col) = a ++ lower keyword ++ b.
Proof.
  unfold mentions. rewrite existsb_exists. split.
  - intros [k [Hin Hc]]. apply contains_spec in Hc as [a [b H]].
    exists k, a, b. auto.
  - intros [k [a [b [Hin H]]]]. exists k. split; [exact Hin|].
    apply contains_spec. exists a, b. exact H.
Qed.

Lemma find_column_some (columns : list cell) (keywords : list str) (col : cell) :
  find_column lower columns keywords = Some col <->
  exists before after,
    columns = before ++ col :: after /\
    mentions lower keywords col = true /\
    Forall (fun c => mentions lower keywords c = false) before.
Proof.
  induction columns as [|c columns IH]; simpl.
  - split; [discriminate | intros [[|x b] [a [H _]]]; discriminate].
  - destruct (mentions lower keywords c) eqn:E.
    + split.
      * intros H; inversion H; subst. exists [], columns. auto.
      * intros [[|x b] [a [H [Hm Hb]]]]; inversion H; subst; [reflexivity|].
        inversion Hb; congruence.
    + rewrite IH. split.
      * intros [b [a [-> [Hm Hb]]]]. exists (c :: b), a. auto.
      * intros [[|x b] [a [H [Hm Hb]]]]; inversion H; subst; [congruence|].
        inversion Hb; subst. exists b, a. auto.
Qed.

Lemma find_column_none (columns : list cell) (keywords : list str) :
  find_column lower columns keywords = None <->
  Forall (fun c => mentions lower keywords c = false) columns.
Proof.
  induction columns as [|c columns IH]; simpl.
  - split; auto.
  - destruct (mentions lower keywords c) eqn:E.
    + split; [discriminate | intros H; inversion H; congruence].
    + rewrite IH. split; [auto | intros H; inversion H; auto].
Qed.

End ColumnResolverFacts.

(** C9: [find_column] returns a column exactly when it is the first one, in
    the order of the table, whose lowered name has the lowered form of some
    keyword as a substring, and returns [None] exactly when no column has
    one; on the columns 사업명, 담당자 and the keyword 사업명 it returns
    사업명. *)
Theorem find_column_first_hit (lower : str -> str)
    (columns : list cell) (keywords : list str) :
  let hit col :=
    exists keyword a b,
      In keyword keywords /\ lower (label_text col) = a ++ lower keyword ++ b in
  (forall col,
     find_column lower columns keywords = Some col <->
     exists before after,
       columns = before ++ col :: after /\ hit col /\
       forall c, In c before -> ~ hit c) /\
  (find_column lower columns keywords = None <->
   forall c, In c columns -> ~ hit c) /\
  find_column lower [Str (u "사업명"); Str (u "담당자")] [u "사업명"]
  = Some (Str (u "사업명")).
Proof.
  intros hit.
  assert (Hno : forall l,
    Forall (fun c => mentions lower keywords c = false) l <->
    forall c, In c l -> ~ hit c).
  { intros l. rewrite Forall_forall. split; intros H c Hc.
    - intros Hh. apply mentions_spec in Hh. rewrite (H c Hc) in Hh. discriminate.
    - destruct (mentions lower keywords c) eqn:E; [|reflexivity].
      exfalso. apply (H c Hc). apply mentions_spec. exact E. }
  split; [|split].
  - intros col. rewrite find_column_some. split.
    + intros [b [a [H1 [H2 H3]]]]. exists b, a. split; [exact H1|]. split.
      * apply mentions_spec. exact H2.
      * apply Hno. exact H3.
    + intros [b [a [H1 [H2 H3]]]]. exists b, a. split; [exact H1|]. split.
      * apply mentions_spec. exact H2.
      * apply Hno. exact H3.
  - rewrite find_column_none. apply Hno.
  - apply find_column_some. exists [], [Str (u "담당자")].
    split; [reflexivity | split; [|constructor]].
    apply mentions_spec. exists (u "사업명"), [], [].
    split; [left; reflexivity|]. simpl. rewrite app_nil_r. reflexivity.
Qed.

(** ** Start-date derivation *)

Lemma mapM_Forall2 {A B : Type} (f : A -> outcome B) (l : list A) (bs : list B) :
  mapM f l = Ret bs -> Forall2 (fun a b => f a = Ret b) l bs.
Proof.
  revert bs; induction l as [|a l IH]; simpl; intros bs H.
  - inversion H. constructor.
  - destruct (f a) as [b|e] eqn:Ea; simpl in H; [|discriminate].
    destruct (mapM f l) as [bs'|e] eqn:El; simpl in H; [|discriminate].
    inversion H; subst. constructor; [exact Ea | apply IH; reflexivity].
Qed.

Lemma Forall2_combine {A B : Type} (P : A -> B -> Prop) (l : list A) (l' : list B) :
  Forall2 P l l' -> forall a b, In (a, b) (combine l l') -> P a b.
Proof.
  induction 1 as [|x y l l' Hxy _ IH]; simpl; intros a b Hin.
  - contradiction.
  - destruct Hin as [E | Hin]; [inversion E; subst; exact Hxy | apply IH; exact Hin].
Qed.

Lemma Forall2_combine_fst {A B C : Type} (P : B -> C -> Prop)
    (l : list A) (l' : list B) (l'' : list C) :
  List.length l = List.length l' -> Forall2 P l' l'' ->
  forall a b c, In (a, b, c) (combine (combine l l') l'') -> P b c.
Proof.
  intros Hlen H. revert l Hlen.
  induction H as [|y z l' l'' Hyz _ IH]; intros l Hlen a b c Hin.
  - destruct l; simpl in Hin; contradiction.
  - destruct l as [|x l]; [discriminate|]. simpl in Hin.
    destruct Hin as [E | Hin]; [inversion E; subst; exact Hyz|].
    eapply (IH l); [simpl in Hlen; congruence | exact Hin].
Qed.

Lemma minus_lookahead_earlier (e s : Z) :
  minus_lookahead (Ts e) = Ret (Ts s) -> s = e - timedelta 14 0 /\ s < e.
Proof.
  unfold minus_lookahead, ts_sub. simpl.
  destruct (in_bounds (e - timedelta 14 0)); simpl; [|discriminate].
  intros H; inversion H; subst. split; [reflexivity|].
  unfold timedelta, ns_per_day, ns_per_second. lia.
Qed.

(** C6: every row [derive_rows] keeps has a resolved end date, the one
    [parse_date] gives for its end-date cell, and a start date exactly 14
    days before it, hence strictly earlier; the row whose end-date cell is
    2024.03.01 is kept with the start date 2024-02-16. *)
Theorem start_date_fourteen_days_before :
  (forall rows out r,
     derive_rows rows = Ret out -> In r out ->
     exists e s,
       finish r = Ts e /\ start r = Ts s /\
       In (source r) rows /\
       parse_date (end_date (source r)) = Ret (Ts e) /\
       s = e - 14 * ns_per_day /\ s < e) /\
  (exists r,
     derive_rows [mkRow (Str (u "공모전")) (Str (u "2024.03.01")) Missing]
     = Ret [r] /\
     date_text (finish r) = u "2024-03-01" /\
     date_text (start r) = u "2024-02-16").
Proof.
  split.
  - intros rows out r Hd Hin. unfold derive_rows in Hd.
    set (kept := filter _ rows) in Hd.
    destruct (mapM _ kept) as [ends|] eqn:He; simpl in Hd; [|discriminate].
    destruct (mapM minus_lookahead ends) as [starts|] eqn:Hs; simpl in Hd;
      [|discriminate].
    inversion Hd; subst out; clear Hd.
    apply filter_In in Hin as [Hin Hres].
    apply in_map_iff in Hin as [[[r0 e0] s0] [<- Hin]].
    simpl in Hres. apply andb_true_iff in Hres as [Hs0 He0].
    destruct e0 as [e|]; [|discriminate]. destruct s0 as [s|]; [|discriminate].
    apply mapM_Forall2 in He. apply mapM_Forall2 in Hs.
    pose proof (Forall2_combine_fst _ kept ends starts
                  (Forall2_length He) Hs _ _ _ Hin) as Hse.
    apply in_combine_l in Hin.
    pose proof (Forall2_combine _ _ _ He _ _ Hin) as Hpe.
    apply in_combine_l in Hin. apply filter_In in Hin as [Hin _].
    apply minus_lookahead_earlier in Hse as [Hse Hlt].
    subst s. exists e, (e - timedelta 14 0). simpl. repeat split; auto.
  - eexists. split; [vm_compute; reflexivity|].
    split; vm_compute; reflexivity.
Qed.

Lemma start_date_fourteen_days_before_witness :
  exists e s,
    Ts (stamp 2024 3 1 0 0 0) = Ts e /\
    Ts (stamp 2024 2 16 0 0 0) = Ts s /\
    s = e - 14 * ns_per_day /\ s < e.
Proof.
  destruct (proj1 start_date_fourteen_days_before
              [mkRow (Str (u "공모전")) (Str (u "2024.03.01")) Missing;
               mkRow (Str (u "입찰")) (Str (u "실행중")) (Str (u "김"))]
              [mkResolved
                 (mkRow (Str (u "공모전")) (Str (u "2024.03.01")) Missing)
                 (Ts (stamp 2024 3 1 0 0 0)) (Ts (stamp 2024 2 16 0 0 0))]
              (mkResolved
                 (mkRow (Str (u "공모전")) (Str (u "2024.03.01")) Missing)
                 (Ts (stamp 2024 3 1 0 0 0)) (Ts (stamp 2024 2 16 0 0 0))))
    as (e & s & He & Hs & _ & _ & Hd & Hlt).
  - vm_compute. reflexivity.
  - left. reflexivity.
  - exists e, s. simpl in He, Hs. auto.
Defined.

(** ** Rule 5: the meridiem marker *)

Lemma search_am_pm_found (s : str) (a : meridiem) :
  search am_pm_at s = Some a -> contains (marker a) s = true.
Proof.
  induction s as [|c s IH]; cbn [search contains]; unfold am_pm_at.
  - destruct (starts_with (marker AM) []) eqn:E1;
      [intros H; inversion H; subst; rewrite E1; reflexivity|].
    destruct (starts_with (marker PM) []) eqn:E2;
      [intros H; inversion H; subst; rewrite E2; reflexivity|].
    discriminate.
  - destruct (starts_with (marker AM) (c :: s)) eqn:E1;
      [intros H; inversion H; subst; rewrite E1; reflexivity|].
    destruct (starts_with (marker PM) (c :: s)) eqn:E2;
      [intros H; inversion H; subst; rewrite E2; reflexivity|].
    intros H. apply IH in H. rewrite H. apply orb_true_r.
Qed.

Lemma search_am_pm_total (s : str) :
  contains (marker AM) s = true \/ contains (marker PM) s = true ->
  exists a, search am_pm_at s = Some a.
Proof.
  induction s as [|c s IH]; cbn [search contains]; unfold am_pm_at.
  - intros [H | H]; vm_compute in H; discriminate.
  - destruct (starts_with (marker AM) (c :: s)) eqn:E1; [eexists; reflexivity|].
    destruct (starts_with (marker PM) (c :: s)) eqn:E2; [eexists; reflexivity|].
    simpl. intros H. apply IH. exact H.
Qed.

(** No sentinel keyword contains a meridiem marker. *)
Lemma marker_not_sentinel (s : str) (a : meridiem) :
  contains (marker a) s = true -> existsb (str_eqb s) sentinels = false.
Proof.
  intros Hc. destruct (existsb (str_eqb s) sentinels) eqn:E; [|reflexivity].
  apply existsb_exists in E as [k [Hin Hk]]. apply str_eqb_eq in Hk. subst k.
  destruct Hin as [<- | [<- | [<- | []]]]; destruct a;
    vm_compute in Hc; discriminate.
Qed.

(** What [parse_date] does once control has reached line 58 and
    [re.search] has found a marker. *)
Lemma parse_date_at_rule_5 (s : str) (a : meridiem) :
  before_rule (strip s) = None ->
  event_rule (strip s) = None ->
  search am_pm_at (strip s) = Some a ->
  parse_date (Str s) =
  match meridiem_attempt a (without_marker a (strip s)) with
  | Ret dt => Ret dt
  | Raise _ => later_rules (without_marker a (strip s))
  end.
Proof.
  intros H2 H3 H4. unfold parse_date.
  rewrite (marker_not_sentinel _ a (search_am_pm_found _ _ H4)), H2, H3, H4.
  destruct (meridiem_attempt a _) as [dt|[]]; reflexivity.
Qed.

(** C5: when control reaches rule 5 (neither the before rule nor the event
    rule returned), [re.search] finds a marker, and the text without the
    marker does not parse under [%Y.%m.%d %I:%M], the result of
    [parse_date] is the result of the bare year rule, the bare year-month
    rule or the format battery on that text, whichever applies; each of the
    three resolves some such cell. *)
Theorem meridiem_failure_falls_through :
  (forall (s : str) (a : meridiem) (e : exn),
     before_rule (strip s) = None ->
     event_rule (strip s) = None ->
     search am_pm_at (strip s) = Some a ->
     to_datetime_format (u "%Y.%m.%d %I:%M") (without_marker a (strip s))
     = Raise e ->
     let remainder := without_marker a (strip s) in
     parse_date (Str s) =
     (if is_year remainder then to_datetime_format (u "%Y") remainder
      else if is_year_month remainder
           then to_datetime_format (u "%Y.%m") remainder
           else try_formats date_formats remainder)) /\
  parse_date (Str (u "오전 2024")) = Ret (Ts (stamp 2024 1 1 0 0 0)) /\
  parse_date (Str (u "2024.05 오후")) = Ret (Ts (stamp 2024 5 1 0 0 0)) /\
  parse_date (Str (u "2024-03-15 오후 14:30"))
  = Ret (Ts (stamp 2024 3 15 14 30 0)).
Proof.
  split; [|repeat split; vm_compute; reflexivity].
  intros s a e H2 H3 H4 H5 remainder.
  rewrite (parse_date_at_rule_5 s a H2 H3 H4).
  unfold meridiem_attempt. fold remainder in H5 |- *. rewrite H5. reflexivity.
Qed.

(** An afternoon cell without a time of day: rule 5 fails on it and the
    battery's second format resolves it. *)
Lemma meridiem_failure_falls_through_witness :
  parse_date (Str (u "2024.03.15 오후"))
  = try_formats date_formats (u "2024.03.15") /\
  try_formats date_formats (u "2024.03.15") = Ret (Ts (stamp 2024 3 15 0 0 0)).
Proof.
  split.
  - apply (proj1 meridiem_failure_falls_through
             (u "2024.03.15 오후") PM ValueError);
      vm_compute; reflexivity.
  - vm_compute. reflexivity.
Defined.

(** C10: for a cell that contains 오전 or 오후 and reaches rule 5, when the
    text without the marker does not parse under [%Y.%m.%d %I:%M], the
    later rules run on the text with every occurrence of the marker found
    first removed and the result stripped, not on the original text:
    2024.03.15 오후 resolves to 2024-03-15 00:00, which the later rules
    would not give on the original text. *)
Theorem later_rules_see_stripped_text :
  (forall s : str,
     before_rule (strip s) = None ->
     event_rule (strip s) = None ->
     contains (u "오전") (strip s) = true \/
     contains (u "오후") (strip s) = true ->
     exists a,
       contains (marker a) (strip s) = true /\
       forall e,
         to_datetime_format (u "%Y.%m.%d %I:%M")
           (strip (replace (strip s) (marker a) [])) = Raise e ->
         parse_date (Str s)
         = later_rules (strip (replace (strip s) (marker a) []))) /\
  parse_date (Str (u "2024.03.15 오후")) = Ret (Ts (stamp 2024 3 15 0 0 0)) /\
  hour_of (stamp 2024 3 15 0 0 0) = 0 /\
  later_rules (u "2024.03.15 오후") = Ret NaT.
Proof.
  split; [|repeat split; vm_compute; reflexivity].
  intros s H2 H3 Hc.
  destruct (search_am_pm_total (strip s) Hc) as [a Ha].
  exists a. split; [apply search_am_pm_found; exact Ha|].
  intros e He.
  rewrite (parse_date_at_rule_5 s a H2 H3 Ha).
  unfold meridiem_attempt, without_marker. rewrite He. reflexivity.
Qed.

Lemma later_rules_see_stripped_text_witness :
  exists a,
    contains (marker a) (strip (u " 2024.05 오전 ")) = true /\
    forall e,
      to_datetime_format (u "%Y.%m.%d %I:%M")
        (strip (replace (strip (u " 2024.05 오전 ")) (marker a) [])) = Raise e ->
      parse_date (Str (u " 2024.05 오전 "))
      = later_rules (strip (replace (strip (u " 2024.05 오전 ")) (marker a) [])).
Proof.
  apply (proj1 later_rules_see_stripped_text (u " 2024.05 오전 ")).
  - vm_compute. reflexivity.
  - vm_compute. reflexivity.
  - left. vm_compute. reflexivity.
Defined.

(** ** Canonical texts: digits, fields and what the matchers read *)

(** Decides the comparisons of a goal that linear arithmetic settles. *)
Ltac zbool :=
  repeat match goal with
  | |- context [?x <=? ?y] =>
    first [ rewrite (proj2 (Z.leb_le x y)) by lia
          | rewrite (proj2 (Z.leb_gt x y)) by lia ]
  | |- context [?x <? ?y] =>
    first [ rewrite (proj2 (Z.ltb_lt x y)) by lia
          | rewrite (proj2 (Z.ltb_ge x y)) by lia ]
  | |- context [?x =? ?y] =>
    first [ rewrite (proj2 (Z.eqb_eq x y)) by lia
          | rewrite (proj2 (Z.eqb_neq x y)) by lia ]
  end.

Lemma digit_value_ascii (c : char) : digitc c -> digit_value c = Some (c - 48).
Proof.
  intros H. unfold digitc in H. unfold digit_value, nd_blocks.
  cbn [find]. zbool. reflexivity.
Qed.

Lemma is_digit_ascii (c : char) : digitc c -> is_digit c = true.
Proof. intros H. unfold is_digit. rewrite digit_value_ascii by exact H. reflexivity. Qed.

Lemma dv_ascii (c : char) : digitc c -> dv c = c - 48.
Proof. intros H. unfold dv. rewrite digit_value_ascii by exact H. reflexivity. Qed.

Lemma is_space_ascii_digit (c : char) : digitc c -> is_space c = false.
Proof. intros H. unfold digitc in H. unfold is_space. zbool. reflexivity. Qed.

Lemma d2_digits (n : Z) :
  0 <= n <= 99 ->
  exists a b, d2 n = [a; b] /\ digitc a /\ digitc b /\ 10 * (a - 48) + (b - 48) = n.
Proof.
  intros H. exists (48 + n / 10), (48 + n mod 10). unfold digitc.
  repeat split; try reflexivity;
    pose proof (Z.div_mod n 10); pose proof (Z.mod_pos_bound n 10); lia.
Qed.

Lemma d4_digits (n : Z) :
  0 <= n <= 9999 ->
  exists a b c d,
    d4 n = [a; b; c; d] /\ digitc a /\ digitc b /\ digitc c /\ digitc d /\
    1000 * (a - 48) + 100 * (b - 48) + 10 * (c - 48) + (d - 48) = n.
Proof.
  intros H.
  exists (48 + n / 1000), (48 + (n / 100) mod 10), (48 + (n / 10) mod 10),
         (48 + n mod 10).
  unfold digitc. split; [reflexivity|].
  pose proof (Z.div_mod n 10). pose proof (Z.mod_pos_bound n 10).
  pose proof (Z.div_mod (n / 10) 10). pose proof (Z.mod_pos_bound (n / 10) 10).
  pose proof (Z.div_mod (n / 100) 10). pose proof (Z.mod_pos_bound (n / 100) 10).
  assert (n / 10 / 10 = n / 100) by (rewrite Z.div_div by lia; reflexivity).
  assert (n / 100 / 10 = n / 1000) by (rewrite Z.div_div by lia; reflexivity).
  lia.
Qed.

Section Matchers.

Context {R : Type}.
Variables (t : str) (k : Z -> str -> option R).

Ltac digits_known :=
  repeat match goal with
  | H : digitc _ |- _ => unfold digitc in H
  end;
  rewrite ?dv_ascii by (unfold digitc; lia);
  rewrite ?is_digit_ascii by (unfold digitc; lia).

Lemma re_Y_ok (a b c d : char) :
  digitc a -> digitc b -> digitc c -> digitc d ->
  re_Y (a :: b :: c :: d :: t) k
  = k (1000 * (a - 48) + 100 * (b - 48) + 10 * (c - 48) + (d - 48)) t.
Proof.
  intros Ha Hb Hc Hd. unfold re_Y. digits_known. reflexivity.
Qed.

(** A zero-padded month or 12-hour field is read whole, by the first
    alternative that starts with its first digit. *)
Lemma re_m_ok (a b : char) (m : Z) (r : R) :
  digitc a -> digitc b -> 10 * (a - 48) + (b - 48) = m -> 1 <= m <= 12 ->
  k m t = Some r ->
  re_m (a :: b :: t) k = Some r.
Proof.
  intros Ha Hb Hm Hr Hk. unfold re_m, two, one, alt, between. digits_known.
  rewrite Hm, Hk.
  assert (a = 48 \/ a = 49) as [-> | ->] by lia; zbool; reflexivity.
Qed.

Lemma re_d_ok (a b : char) (d : Z) (r : R) :
  digitc a -> digitc b -> 10 * (a - 48) + (b - 48) = d -> 1 <= d <= 31 ->
  k d t = Some r ->
  re_d (a :: b :: t) k = Some r.
Proof.
  intros Ha Hb Hd Hr Hk. unfold re_d, two, one, alt, between. digits_known.
  rewrite Hd, Hk.
  assert (a = 48 \/ a = 49 \/ a = 50 \/ a = 51) as [-> | [-> | [-> | ->]]]
    by lia; zbool; reflexivity.
Qed.

Lemma re_M_ok (a b : char) (mi : Z) (r : R) :
  digitc a -> digitc b -> 10 * (a - 48) + (b - 48) = mi -> 0 <= mi <= 59 ->
  k mi t = Some r ->
  re_M (a :: b :: t) k = Some r.
Proof.
  intros Ha Hb Hd Hr Hk. unfold re_M, two, one, alt, between. digits_known.
  rewrite Hd, Hk. zbool. reflexivity.
Qed.

End Matchers.

(** ** Calendar arithmetic *)

Lemma valid_dateb_true (y m d : Z) : valid_date y m d -> valid_dateb y m d = true.
Proof.
  unfold valid_date, valid_dateb. intros [[H1 H2] [H3 H4]]. zbool. reflexivity.
Qed.

Lemma month_cases (m : Z) :
  1 <= m <= 12 ->
  m = 1 \/ m = 2 \/ m = 3 \/ m = 4 \/ m = 5 \/ m = 6 \/
  m = 7 \/ m = 8 \/ m = 9 \/ m = 10 \/ m = 11 \/ m = 12.
Proof. lia. Qed.

Ltac each_month H :=
  destruct (month_cases _ H)
    as [-> | [-> | [-> | [-> | [-> | [-> | [-> | [-> | [-> | [-> | [-> | ->]]]]]]]]]]].

(** Evaluates the month tables of a goal, for a month that is known, in
    a common year and in a leap year. *)
Ltac month_table :=
  unfold days_before_month, days_in_month;
  repeat match goal with
  | |- context [is_leapyear ?y] => destruct (is_leapyear y)
  end;
  repeat match goal with
  | |- context [month_days_upto ?b ?n] =>
    let v := eval vm_compute in (month_days_upto b n) in
    change (month_days_upto b n) with v
  | |- context [month_length ?b ?n] =>
    let v := eval vm_compute in (month_length b n) in
    change (month_length b n) with v
  end.

Lemma days_in_month_bounds (y m : Z) :
  1 <= m <= 12 -> 28 <= days_in_month y m <= 31.
Proof. intros H. each_month H; month_table; lia. Qed.

Lemma days_before_month_bounds (y m : Z) :
  1 <= m <= 12 -> 0 <= days_before_month y m <= 335.
Proof. intros H. each_month H; month_table; lia. Qed.

Lemma days_before_month_succ (y m : Z) :
  1 <= m <= 11 ->
  days_before_month y (m + 1) = days_before_month y m + days_in_month y m.
Proof.
  intros H. assert (1 <= m <= 12) as H' by lia.
  each_month H'; try lia; month_table; reflexivity.
Qed.

Lemma days_before_year_succ (y : Z) :
  days_before_year (y + 1)
  = days_before_year y + (if is_leapyear y then 366 else 365).
Proof.
  unfold days_before_year, is_leapyear.
  destruct (Z.eqb_spec (y mod 4) 0) as [E4|E4];
    destruct (Z.eqb_spec (y mod 100) 0) as [E100|E100];
    destruct (Z.eqb_spec (y mod 400) 0) as [E400|E400];
    cbn [andb orb negb];
    Z.div_mod_to_equations; lia.
Qed.

(** The day before a valid date is a valid date, one day number lower. *)
Lemma prev_day_spec (y m d : Z) :
  valid_date y m d ->
  let '(y', m', d') := prev_day y m d in
  valid_date y' m' d' /\
  days_from_civil y' m' d' = days_from_civil y m d - 1.
Proof.
  intros [Hm Hd]. unfold prev_day.
  destruct (Z.ltb_spec 1 d) as [Hd1|Hd1].
  - split; [split; lia|]. unfold days_from_civil. lia.
  - assert (d = 1) as -> by lia.
    destruct (Z.ltb_spec 1 m) as [Hm1|Hm1].
    + pose proof (days_in_month_bounds y (m - 1)).
      split; [split; lia|]. unfold days_from_civil.
      pose proof (days_before_month_succ y (m - 1)) as Hs.
      replace (m - 1 + 1) with m in Hs by lia. lia.
    + assert (m = 1) as -> by lia.
      split; [split; [lia | month_table; lia]|]. unfold days_from_civil.
      pose proof (days_before_year_succ (y - 1)) as Hs.
      replace (y - 1 + 1) with y in Hs by lia. rewrite Hs.
      month_table; lia.
Qed.

Lemma hour_of_stamp (y m d h mi s : Z) :
  0 <= h < 24 -> 0 <= mi < 60 -> 0 <= s < 60 ->
  hour_of (stamp y m d h mi s) = h.
Proof.
  intros Hh Hmi Hs. unfold hour_of, stamp, ns_per_second.
  generalize (days_from_civil y m d) as n. intros n.
  rewrite Z.div_mul_cancel_r by lia.
  Z.div_mod_to_equations. lia.
Qed.

(** Within the nanosecond range the year has four digits. *)
Lemma in_bounds_year (y m d h mi s : Z) :
  valid_date y m d -> 0 <= h < 24 -> 0 <= mi < 60 -> 0 <= s < 60 ->
  in_bounds (stamp y m d h mi s) = true -> 1677 <= y <= 2262.
Proof.
  intros [Hm Hd] Hh Hmi Hs Hb.
  unfold in_bounds, ts_min, ts_max, stamp, ns_per_second in Hb.
  apply andb_true_iff in Hb as [H1 H2].
  apply Z.leb_le in H1, H2.
  pose proof (days_before_month_bounds y m Hm).
  pose proof (days_in_month_bounds y m Hm).
  unfold days_from_civil, days_before_year in H1, H2.
  revert H1 H2.
  generalize dependent (days_before_month y m). intros dbm.
  generalize dependent (days_in_month y m). intros dim.
  intros. Z.div_mod_to_equations. lia.
Qed.

(** When the first and the last second of a day are timestamps, so is
    every moment between them. *)
Lemma representable_day_moment (y m d h mi s : Z) :
  representable_day y m d ->
  0 <= h < 24 -> 0 <= mi < 60 -> 0 <= s < 60 ->
  in_bounds (stamp y m d h mi s) = true.
Proof.
  intros [H0 H1] Hh Hmi Hs. unfold in_bounds, stamp, ns_per_second in *.
  revert H0 H1. generalize (days_from_civil y m d) as n. intros n H0 H1.
  apply andb_true_iff in H0 as [A0 B0]. apply andb_true_iff in H1 as [A1 B1].
  apply Z.leb_le in A0, B0, A1, B1.
  apply andb_true_iff. split; apply Z.leb_le; lia.
Qed.

(** ** Text of canonical cells through the early rules *)

Lemma lstrip_head (c : char) (t : str) :
  is_space c = false -> lstrip (c :: t) = c :: t.
Proof. intros H. cbn [lstrip]. rewrite H. reflexivity. Qed.

Lemma rstrip_last (s : str) (c : char) :
  is_space c = false -> rstrip (s ++ [c]) = s ++ [c].
Proof.
  intros H. unfold rstrip. rewrite rev_app_distr. cbn [rev app].
  rewrite lstrip_head by exact H.
  change (c :: rev s) with (rev [c] ++ rev s).
  rewrite <- rev_app_distr, rev_involutive. reflexivity.
Qed.

(** [strip] leaves a text alone when neither end is white space. *)
Lemma strip_keep (c c' : char) (t s' : str) :
  c :: t = s' ++ [c'] -> is_space c = false -> is_space c' = false ->
  strip (c :: t) = c :: t.
Proof.
  intros E Hc Hc'. unfold strip. rewrite lstrip_head by exact Hc.
  rewrite E. apply rstrip_last. exact Hc'.
Qed.

Lemma sentinels_heads :
  sentinels = [49324 :: [51204; 44508; 44201];
               44204 :: [51201; 49436; 32; 50836; 52397];
               49892 :: [54665; 51473]].
Proof. vm_compute. reflexivity. Qed.

(** A text is no sentinel when its first character starts none. *)
Lemma not_sentinel_head (c : char) (t : str) :
  c <> 49324 -> c <> 44204 -> c <> 49892 ->
  existsb (str_eqb (c :: t)) sentinels = false.
Proof.
  intros H1 H2 H3. rewrite sentinels_heads. cbn [existsb str_eqb].
  zbool. reflexivity.
Qed.

Lemma nat_strings_heads :
  nat_strings = [[]; [78; 97; 84]; [110; 97; 116]; [78; 65; 84];
                 [110; 97; 110]; [78; 97; 78]; [78; 65; 78]].
Proof. vm_compute. reflexivity. Qed.

Lemma not_nat_string_head (c : char) (t : str) :
  c <> 78 -> c <> 110 -> existsb (str_eqb (c :: t)) nat_strings = false.
Proof.
  intros H1 H2. rewrite nat_strings_heads. cbn [existsb str_eqb].
  zbool. reflexivity.
Qed.

Lemma marker_text (a : meridiem) :
  marker a = [50724; match a with AM => 51204 | PM => 54980 end].
Proof. destruct a; vm_compute; reflexivity. Qed.

Lemma starts_with_head (c x : char) (p t : str) :
  c <> x -> starts_with (c :: p) (x :: t) = false.
Proof. intros H. cbn [starts_with]. zbool. reflexivity. Qed.

(** No marker is found in a text without the syllable 오. *)
Lemma search_am_pm_absent (s : str) :
  ~ In 50724 s -> search am_pm_at s = None.
Proof.
  induction s as [|x s IH]; intros Hn.
  - vm_compute. reflexivity.
  - cbn [search]. unfold am_pm_at. rewrite !marker_text.
    assert (50724 <> x) by (intros <-; apply Hn; left; reflexivity).
    rewrite !starts_with_head by assumption.
    apply IH. intros Hi. apply Hn. right. exact Hi.
Qed.

Lemma date_at_not_digit (sep c : char) (t : str) :
  is_digit c = false -> date_at sep (c :: t) = None.
Proof.
  intros H. unfold date_at.
  do 9 (destruct t as [|? t]; [reflexivity|]).
  rewrite H. reflexivity.
Qed.

(** [re.search] skips a prefix without digits. *)
Lemma search_date_skip (sep : char) (pre rest : str) :
  Forall (fun c => is_digit c = false) pre ->
  search (date_at sep) (pre ++ rest) = search (date_at sep) rest.
Proof.
  induction 1 as [|c pre Hc _ IH]; [reflexivity|].
  cbn [app search]. rewrite date_at_not_digit by exact Hc. exact IH.
Qed.

Lemma search_date_here (sep a b c d e f g h : char) (t : str) :
  digitc a -> digitc b -> digitc c -> digitc d ->
  digitc e -> digitc f -> digitc g -> digitc h ->
  search (date_at sep) (a :: b :: c :: d :: sep :: e :: f :: sep :: g :: h :: t)
  = Some [a; b; c; d; sep; e; f; sep; g; h].
Proof.
  intros. destruct t; cbn [search date_at];
    rewrite !is_digit_ascii, !Z.eqb_refl by assumption; reflexivity.
Qed.

(** A text of ASCII digits and separators below the Hangul block contains
    neither a before-marker, nor an event-marker, nor a meridiem marker. *)
Lemma plain_text_no_markers (s : str) :
  Forall (fun c => c < 44032) s ->
  contains (u "이전") s = false /\
  contains (u "행사") s = false /\
  search am_pm_at s = None.
Proof.
  intros H.
  assert (forall c, 44032 <= c -> ~ In c s) as Hn.
  { intros c Hc Hi. rewrite Forall_forall in H. specialize (H c Hi). lia. }
  change (u "이전") with [51060; 51204]. change (u "행사") with [54665; 49324].
  repeat split;
    [apply contains_absent | apply contains_absent | apply search_am_pm_absent];
    apply Hn; lia.
Qed.

(** ** Canonical dates through the format battery *)

Lemma build_ok (y m d h mi s : Z) :
  valid_date y m d -> 0 <= s < 60 ->
  in_bounds (stamp y m d h mi s) = true ->
  build y m d h mi s = Ret (Ts (stamp y m d h mi s)).
Proof.
  intros Hv Hs Hb. unfold build.
  rewrite (valid_dateb_true _ _ _ Hv), Hb. cbn [negb]. zbool. reflexivity.
Qed.

(** The canonical text of a date, digit by digit. *)
Lemma date_digits (sep y m d : Z) :
  0 <= y <= 9999 -> valid_date y m d ->
  exists a b c e f g h i,
    d4 y ++ [sep] ++ d2 m ++ [sep] ++ d2 d = [a; b; c; e; sep; f; g; sep; h; i] /\
    (digitc a /\ digitc b /\ digitc c /\ digitc e /\
     1000 * (a - 48) + 100 * (b - 48) + 10 * (c - 48) + (e - 48) = y) /\
    (digitc f /\ digitc g /\ 10 * (f - 48) + (g - 48) = m) /\
    (digitc h /\ digitc i /\ 10 * (h - 48) + (i - 48) = d).
Proof.
  intros Hy [Hm Hd]. pose proof (days_in_month_bounds y m Hm).
  destruct (d4_digits y Hy) as (a & b & c & e & -> & ? & ? & ? & ? & ?).
  destruct (d2_digits m) as (f & g & -> & ? & ? & ?); [lia|].
  destruct (d2_digits d) as (h & i & -> & ? & ? & ?); [lia|].
  exists a, b, c, e, f, g, h, i. cbn [app]. auto 10.
Qed.

Lemma iso_format_reads (y m d : Z) :
  0 <= y <= 9999 -> valid_date y m d ->
  to_datetime_format (u "%Y-%m-%d") (iso_date y m d) = build y m d 0 0 0.
Proof.
  intros Hy Hv. pose proof Hv as [Hm Hd].
  pose proof (days_in_month_bounds y m Hm).
  destruct (date_digits 45 y m d Hy Hv)
    as (a & b & c & e & f & g & h & i & E & (?&?&?&?&Ey) & (?&?&Em) & (?&?&Ed)).
  unfold iso_date. rewrite E. unfold to_datetime_format.
  rewrite not_nat_string_head by (unfold digitc in *; lia).
  change (compile_format (u "%Y-%m-%d")) with [pY; lit 45; pm; lit 45; pd].
  assert (run [pY; lit 45; pm; lit 45; pd] no_fields
              [a; b; c; e; 45; f; g; 45; h; i]
          = Some (mkFields y m d None None 0 0 None, [])) as ->.
  { cbn [run]. rewrite re_Y_ok, Ey by assumption. rewrite Z.eqb_refl.
    apply (re_m_ok _ _ f g m); try assumption.
    rewrite Z.eqb_refl.
    apply (re_d_ok _ _ h i d); try assumption; [lia|].
    reflexivity. }
  reflexivity.
Qed.

(** C8, the claim as written fails: 3000-01-01 is a valid calendar date in
    canonical form, no timestamp can hold it, every format of the battery
    raises, and the cell is unresolved. *)
Lemma canonical_year_3000_unresolved :
  valid_date 3000 1 1 /\
  parse_date (Str (iso_date 3000 1 1)) = Ret NaT.
Proof.
  split; [unfold valid_date; vm_compute; intuition discriminate|].
  vm_compute. reflexivity.
Qed.

(** C8, amended: a valid calendar date that a timestamp can hold, written
    in canonical YYYY-MM-DD form, resolves to midnight of that date. *)
Theorem canonical_date_resolves_to_itself (y m d : Z) :
  valid_date y m d ->
  in_bounds (stamp y m d 0 0 0) = true ->
  parse_date (Str (iso_date y m d)) = Ret (Ts (stamp y m d 0 0 0)).
Proof.
  intros Hv Hb.
  assert (0 <= y <= 9999) as Hy
    by (pose proof (in_bounds_year y m d 0 0 0 Hv
                      ltac:(lia) ltac:(lia) ltac:(lia) Hb); lia).
  pose proof (iso_format_reads y m d Hy Hv) as Hread.
  destruct (date_digits 45 y m d Hy Hv)
    as (a & b & c & e & f & g & h & i & E & (?&?&?&?&Ey) & (?&?&Em) & (?&?&Ed)).
  unfold iso_date in *. rewrite E in *. unfold digitc in *.
  unfold parse_date.
  rewrite (strip_keep a i _ [a; b; c; e; 45; f; g; 45; h]);
    [|reflexivity|apply is_space_ascii_digit; unfold digitc; lia ..].
  rewrite not_sentinel_head by lia.
  destruct (plain_text_no_markers [a; b; c; e; 45; f; g; 45; h; i])
    as (Hb1 & Hb2 & Hb3); [repeat constructor; lia|].
  unfold before_rule, event_rule. rewrite Hb1, Hb2, Hb3.
  unfold later_rules.
  assert (is_year [a; b; c; e; 45; f; g; 45; h; i] = false) as ->
    by (cbn [is_year at_end]; rewrite !andb_false_r; reflexivity).
  assert (is_year_month [a; b; c; e; 45; f; g; 45; h; i] = false) as ->.
  { cbn [is_year_month]. change (45 =? 46) with false.
    rewrite !andb_false_r. reflexivity. }
  unfold date_formats. cbn [try_formats]. rewrite Hread.
  rewrite build_ok by (assumption || lia). reflexivity.
Qed.

Lemma canonical_date_resolves_to_itself_witness :
  parse_date (Str (u "2024-02-29")) = Ret (Ts (stamp 2024 2 29 0 0 0)).
Proof.
  apply (canonical_date_resolves_to_itself 2024 2 29).
  - unfold valid_date. vm_compute. intuition discriminate.
  - vm_compute. reflexivity.
Defined.

(** ** Rule 3: the before-marker *)

Lemma midnight_before_one_day (y m d : Z) :
  valid_date y m d ->
  midnight_before y m d = stamp y m d 0 0 0 - ns_per_day.
Proof.
  intros Hv. unfold midnight_before.
  pose proof (prev_day_spec y m d Hv) as H.
  destruct (prev_day y m d) as [[y' m'] d']. destruct H as [_ H].
  unfold stamp, ns_per_day, ns_per_second. rewrite H. lia.
Qed.

Lemma timedelta_one_day : timedelta 1 0 = ns_per_day.
Proof. vm_compute. reflexivity. Qed.

Lemma to_datetime_reads (y m d : Z) :
  0 <= y <= 9999 -> valid_date y m d ->
  to_datetime (iso_date y m d) = build y m d 0 0 0.
Proof.
  intros Hy Hv.
  destruct (date_digits 45 y m d Hy Hv)
    as (a & b & c & e & f & g & h & i & E & (?&?&?&?&Ey) & (?&?&Em) & (?&?&Ed)).
  unfold iso_date. rewrite E. unfold to_datetime.
  rewrite !dv_ascii by assumption. rewrite Ey, Em, Ed. reflexivity.
Qed.

(** C3, the claim as written fails: 3000-01-01 is a valid calendar date,
    no timestamp can hold it, and the conversion of line 51, which no
    [try] encloses, raises. *)
Lemma before_year_3000_raises :
  valid_date 3000 1 1 /\
  parse_date (Str (u "이전" ++ iso_date 3000 1 1)) = Raise OutOfBoundsDatetime.
Proof.
  split; [unfold valid_date; vm_compute; intuition discriminate|].
  vm_compute. reflexivity.
Qed.

(** C3, amended: for a valid calendar date D that a timestamp can hold, as
    it can hold the day before, a cell made of the before-marker, any text
    without digits, and D in YYYY-MM-DD form resolves to midnight of the
    calendar day before D: the last day of the previous month on a first of
    the month, December 31 of the previous year on January 1. *)
Theorem before_marker_previous_day (y m d : Z) (sep : str) :
  valid_date y m d ->
  in_bounds (stamp y m d 0 0 0) = true ->
  in_bounds (midnight_before y m d) = true ->
  Forall (fun c => is_digit c = false) sep ->
  parse_date (Str (u "이전" ++ sep ++ iso_date y m d))
  = Ret (Ts (midnight_before y m d)).
Proof.
  intros Hv Hb Hb' Hsep.
  assert (0 <= y <= 9999) as Hy
    by (pose proof (in_bounds_year y m d 0 0 0 Hv
                      ltac:(lia) ltac:(lia) ltac:(lia) Hb); lia).
  pose proof (to_datetime_reads y m d Hy Hv) as Hread.
  rewrite (midnight_before_one_day y m d Hv) in *.
  destruct (date_digits 45 y m d Hy Hv)
    as (a & b & c & e & f & g & h & i & E & (?&?&?&?&Ey) & (?&?&Em) & (?&?&Ed)).
  unfold iso_date in *. rewrite E in *.
  change (u "이전") with [51060; 51204]. cbn [app].
  unfold parse_date.
  rewrite (strip_keep 51060 i _
             (51060 :: 51204 :: sep ++ [a; b; c; e; 45; f; g; 45; h]));
    [| cbn [app]; rewrite <- app_assoc; reflexivity
     | reflexivity
     | apply is_space_ascii_digit; assumption ].
  rewrite not_sentinel_head by lia.
  unfold before_rule. change (u "이전") with [51060; 51204].
  cbn [contains starts_with]. rewrite !Z.eqb_refl. cbn [andb orb].
  change (51060 :: 51204 :: sep ++ [a; b; c; e; 45; f; g; 45; h; i])
    with ((51060 :: 51204 :: sep) ++ [a; b; c; e; 45; f; g; 45; h; i]).
  rewrite search_date_skip
    by (constructor; [reflexivity | constructor; [reflexivity | exact Hsep]]).
  rewrite search_date_here by assumption.
  rewrite Hread, build_ok by (assumption || lia).
  cbn [bind]. unfold ts_sub. rewrite timedelta_one_day, Hb'. reflexivity.
Qed.

Lemma before_marker_previous_day_witness :
  parse_date (Str (u "이전 2024-03-01")) = Ret (Ts (stamp 2024 2 29 0 0 0)) /\
  parse_date (Str (u "이전2024-01-01")) = Ret (Ts (stamp 2023 12 31 0 0 0)).
Proof.
  split.
  - apply (before_marker_previous_day 2024 3 1 [32]).
    + unfold valid_date. vm_compute. intuition discriminate.
    + vm_compute. reflexivity.
    + vm_compute. reflexivity.
    + repeat constructor.
  - apply (before_marker_previous_day 2024 1 1 []).
    + unfold valid_date. vm_compute. intuition discriminate.
    + vm_compute. reflexivity.
    + vm_compute. reflexivity.
    + constructor.
Defined.

(** ** Rule 5 on a canonical 12-hour cell *)

Lemma replace_from_absent (c0 : char) (p0 new s : str) :
  ~ In c0 s -> replace_from (c0 :: p0) new O s = s.
Proof.
  induction s as [|x s IH]; intros Hn; [reflexivity|].
  cbn [replace_from].
  rewrite starts_with_head by (intros ->; apply Hn; left; reflexivity).
  rewrite IH; [reflexivity|]. intros Hi. apply Hn. right. exact Hi.
Qed.

Lemma replace_from_skip (old new pre post : str) :
  replace_from old new (List.length pre) (pre ++ post)
  = replace_from old new O post.
Proof.
  induction pre as [|x pre IH]; [reflexivity|]. cbn [List.length app replace_from].
  exact IH.
Qed.

Lemma starts_with_app (p t : str) : starts_with p (p ++ t) = true.
Proof. apply starts_with_spec. exists t. reflexivity. Qed.

(** [replace] removes the one occurrence of a marker whose first character
    occurs nowhere else. *)
Lemma replace_once (c0 : char) (p0 pre post : str) :
  ~ In c0 pre -> ~ In c0 post ->
  replace (pre ++ (c0 :: p0) ++ post) (c0 :: p0) [] = pre ++ post.
Proof.
  intros Hpre Hpost. unfold replace.
  induction pre as [|x pre IH].
  - cbn [app]. change (c0 :: p0 ++ post) with ((c0 :: p0) ++ post).
    cbn [replace_from app].
    change (c0 :: p0 ++ post) with ((c0 :: p0) ++ post).
    rewrite starts_with_app. cbn [List.length Nat.pred app].
    rewrite replace_from_skip. apply replace_from_absent. exact Hpost.
  - rewrite <- app_comm_cons. cbn [replace_from].
    rewrite starts_with_head by (intros ->; apply Hpre; left; reflexivity).
    rewrite IH; [reflexivity|]. intros Hi. apply Hpre. right. exact Hi.
Qed.

Lemma search_am_pm_here (a : meridiem) (pre post : str) :
  ~ In 50724 pre -> search am_pm_at (pre ++ marker a ++ post) = Some a.
Proof.
  intros Hpre. induction pre as [|x pre IH].
  - rewrite marker_text. cbn [app search]. unfold am_pm_at.
    rewrite !marker_text. destruct a; cbn [starts_with];
      rewrite ?Z.eqb_refl; reflexivity.
  - rewrite <- app_comm_cons. cbn [search]. unfold am_pm_at at 1.
    rewrite !marker_text.
    assert (50724 <> x) by (intros <-; apply Hpre; left; reflexivity).
    rewrite !starts_with_head by assumption.
    rewrite <- marker_text.
    apply IH. intros Hi. apply Hpre. right. exact Hi.
Qed.

Lemma ws_plus_two {R : Type} (c : char) (t : str) (k : str -> option R) (r : R) :
  is_space c = false -> k (c :: t) = Some r ->
  ws_plus (32 :: 32 :: c :: t) k = Some r.
Proof.
  intros Hc Hk. unfold ws_plus. change (is_space 32) with true.
  cbn [ws_star]. change (is_space 32) with true. cbn iota.
  rewrite Hc, Hk. reflexivity.
Qed.

(** The text rule 5 parses: the date, the two blanks the removed marker
    leaves behind, and the clock. *)
Lemma meridiem_format_reads (y m d hh mm : Z) :
  0 <= y <= 9999 -> valid_date y m d -> 1 <= hh <= 12 -> 0 <= mm <= 59 ->
  to_datetime_format (u "%Y.%m.%d %I:%M")
    (dotted_date y m d ++ [32; 32] ++ clock hh mm)
  = build y m d (hour12 hh None) mm 0.
Proof.
  intros Hy Hv Hh Hmm. pose proof Hv as [Hm Hd].
  pose proof (days_in_month_bounds y m Hm).
  destruct (date_digits 46 y m d Hy Hv)
    as (a & b & c & e & f & g & h & i & E & (?&?&?&?&Ey) & (?&?&Em) & (?&?&Ed)).
  destruct (d2_digits hh) as (p & q & Ehh & ? & ? & Eh); [lia|].
  destruct (d2_digits mm) as (v & w & Emm & ? & ? & Emi); [lia|].
  unfold dotted_date, clock. rewrite E, Ehh, Emm. cbn [app].
  unfold to_datetime_format.
  rewrite not_nat_string_head by (unfold digitc in *; lia).
  change (compile_format (u "%Y.%m.%d %I:%M"))
    with [pY; lit 46; pm; lit 46; pd; ws; pI; lit 58; pM].
  assert (run [pY; lit 46; pm; lit 46; pd; ws; pI; lit 58; pM] no_fields
              [a; b; c; e; 46; f; g; 46; h; i; 32; 32; p; q; 58; v; w]
          = Some (mkFields y m d None (Some hh) mm 0 None, [])) as ->.
  { cbn [run]. rewrite re_Y_ok, Ey by assumption. rewrite Z.eqb_refl.
    apply (re_m_ok _ _ f g m); try assumption.
    rewrite Z.eqb_refl.
    apply (re_d_ok _ _ h i d); try assumption; [lia|].
    apply ws_plus_two; [apply is_space_ascii_digit; assumption|].
    cbn [run].
    apply (re_m_ok _ _ p q hh); try assumption.
    rewrite Z.eqb_refl.
    apply (re_M_ok _ _ v w mm); try assumption.
    reflexivity. }
  reflexivity.
Qed.

Lemma stamp_add_hours (y m d h mi s k : Z) :
  stamp y m d h mi s + timedelta 0 k = stamp y m d (h + k) mi s.
Proof. unfold stamp, timedelta, ns_per_day, ns_per_second. lia. Qed.

Lemma hour12_morning (hh : Z) :
  1 <= hh <= 12 ->
  0 <= hour12 hh None < 12 /\
  hour12 hh (Some false) = hour12 hh None /\
  hour12 hh (Some true) = hour12 hh None + 12.
Proof.
  intros H. unfold hour12. destruct (Z.eqb_spec hh 12); lia.
Qed.

(** A cell [YYYY.MM.DD <marker> hh:mm] with a 12-hour clock resolves to the
    moment the 12-hour clock names. *)
Lemma meridiem_cell_resolves (a : meridiem) (y m d hh mm : Z) :
  valid_date y m d -> representable_day y m d ->
  1 <= hh <= 12 -> 0 <= mm <= 59 ->
  parse_date
    (Str (dotted_date y m d ++ [32] ++ marker a ++ [32] ++ clock hh mm))
  = Ret (Ts (stamp y m d
               (hour12 hh (Some match a with AM => false | PM => true end))
               mm 0)).
Proof.
  intros Hv Hrep Hh Hmm.
  assert (0 <= y <= 9999) as Hy
    by (pose proof (in_bounds_year y m d 0 0 0 Hv
                      ltac:(lia) ltac:(lia) ltac:(lia) (proj1 Hrep)); lia).
  pose proof (meridiem_format_reads y m d hh mm Hy Hv Hh Hmm) as Hread.
  destruct (hour12_morning hh Hh) as (Hh0 & Ham & Hpm).
  pose proof (representable_day_moment y m d (hour12 hh None) mm 0 Hrep
                ltac:(lia) ltac:(lia) ltac:(lia)) as Hb0.
  pose proof (representable_day_moment y m d (hour12 hh None + 12) mm 0 Hrep
                ltac:(lia) ltac:(lia) ltac:(lia)) as Hb12.
  rewrite build_ok in Hread by (assumption || lia).
  destruct (date_digits 46 y m d Hy Hv)
    as (c1 & c2 & c3 & c4 & f & g & h & i & E & (?&?&?&?&Ey) & (?&?&Em) & (?&?&Ed)).
  destruct (d2_digits hh) as (p & q & Ehh & ? & ? & Eh); [lia|].
  destruct (d2_digits mm) as (v & w & Emm & ? & ? & Emi); [lia|].
  unfold dotted_date, clock in *. rewrite E, Ehh, Emm in *.
  cbn [app] in Hread. rewrite marker_text.
  set (x := match a with AM => 51204 | PM => 54980 end).
  assert (x = 51204 \/ x = 54980) as Hx by (destruct a; auto).
  cbn [app]. unfold digitc in *.
  unfold parse_date.
  rewrite (strip_keep c1 w _
    [c1; c2; c3; c4; 46; f; g; 46; h; i; 32; 50724; x; 32; p; q; 58; v]);
    [|reflexivity|apply is_space_ascii_digit; unfold digitc; lia ..].
  rewrite not_sentinel_head by lia.
  unfold before_rule, event_rule.
  change (u "이전") with [51060; 51204]. change (u "행사") with [54665; 49324].
  rewrite !contains_absent by (cbn [In]; lia).
  change [c1; c2; c3; c4; 46; f; g; 46; h; i; 32; 50724; x; 32; p; q; 58; v; w]
    with ([c1; c2; c3; c4; 46; f; g; 46; h; i; 32] ++ (50724 :: [x])
          ++ [32; p; q; 58; v; w]).
  subst x. rewrite <- marker_text.
  rewrite search_am_pm_here by (cbn [In]; lia).
  unfold without_marker. rewrite marker_text at 1 2.
  rewrite replace_once by (cbn [In]; lia). cbn [app].
  rewrite (strip_keep c1 w _
    [c1; c2; c3; c4; 46; f; g; 46; h; i; 32; 32; p; q; 58; v]);
    [|reflexivity|apply is_space_ascii_digit; unfold digitc; lia ..].
  unfold meridiem_attempt. rewrite Hread. cbn [bind].
  rewrite hour_of_stamp by lia.
  destruct a.
  - rewrite (proj2 (Z.eqb_neq _ 12)) by lia. rewrite Ham. reflexivity.
  - rewrite (proj2 (Z.eqb_neq _ 12)) by lia. cbn [negb].
    unfold ts_add. rewrite stamp_add_hours, Hb12, Hpm. reflexivity.
Qed.

(** C2, the claim as written fails: 3000.01.01 is a valid date, no
    timestamp can hold a moment of it, the conversion of rule 5 raises
    inside its [try], so do all the formats of the battery, and the cell
    is unresolved. *)
Lemma meridiem_year_3000_unresolved :
  valid_date 3000 1 1 /\
  parse_date (Str (dotted_date 3000 1 1 ++ u " 오전 " ++ clock 12 30))
  = Ret NaT.
Proof.
  split; [unfold valid_date; vm_compute; intuition discriminate|].
  vm_compute. reflexivity.
Qed.

(** C2, amended: for every valid date whose day lies within the range of
    timestamps and every minute, 오전 12:mm resolves to hour 0 of that
    date, 오후 12:mm to hour 12, and 오후 hh:mm with hh from 01 to 11 to
    hour hh+12; so do the three cells of 2024.03.15. *)
Theorem meridiem_correction_wraparound :
  (forall y m d mm,
     valid_date y m d -> representable_day y m d -> 0 <= mm <= 59 ->
     parse_date (Str (dotted_date y m d ++ u " 오전 " ++ clock 12 mm))
     = Ret (Ts (stamp y m d 0 mm 0)) /\
     parse_date (Str (dotted_date y m d ++ u " 오후 " ++ clock 12 mm))
     = Ret (Ts (stamp y m d 12 mm 0)) /\
     forall hh, 1 <= hh <= 11 ->
       parse_date (Str (dotted_date y m d ++ u " 오후 " ++ clock hh mm))
       = Ret (Ts (stamp y m d (hh + 12) mm 0))) /\
  parse_date (Str (u "2024.03.15 오전 12:30"))
  = Ret (Ts (stamp 2024 3 15 0 30 0)) /\
  parse_date (Str (u "2024.03.15 오후 12:30"))
  = Ret (Ts (stamp 2024 3 15 12 30 0)) /\
  parse_date (Str (u "2024.03.15 오후 01:30"))
  = Ret (Ts (stamp 2024 3 15 13 30 0)).
Proof.
  split; [|repeat split; vm_compute; reflexivity].
  intros y m d mm Hv Hrep Hmm.
  assert (forall a hh, 1 <= hh <= 12 ->
    parse_date (Str (dotted_date y m d ++ [32] ++ marker a ++ [32] ++ clock hh mm))
    = Ret (Ts (stamp y m d
                 (hour12 hh (Some match a with AM => false | PM => true end))
                 mm 0))) as Hcell
    by (intros a hh Hh; apply meridiem_cell_resolves; assumption).
  split; [|split].
  - exact (Hcell AM 12 ltac:(lia)).
  - exact (Hcell PM 12 ltac:(lia)).
  - intros hh Hh. pose proof (Hcell PM hh ltac:(lia)) as H.
    unfold hour12 in H. rewrite (proj2 (Z.eqb_neq hh 12)) in H by lia.
    exact H.
Qed.

Lemma meridiem_correction_wraparound_witness :
  parse_date (Str (dotted_date 2024 12 31 ++ u " 오전 " ++ clock 12 5))
  = Ret (Ts (stamp 2024 12 31 0 5 0)) /\
  parse_date (Str (dotted_date 2024 12 31 ++ u " 오후 " ++ clock 12 5))
  = Ret (Ts (stamp 2024 12 31 12 5 0)) /\
  forall hh, 1 <= hh <= 11 ->
    parse_date (Str (dotted_date 2024 12 31 ++ u " 오후 " ++ clock hh 5))
    = Ret (Ts (stamp 2024 12 31 (hh + 12) 5 0)).
Proof.
  apply (proj1 meridiem_correction_wraparound 2024 12 31 5).
  - unfold valid_date. vm_compute. intuition discriminate.
  - split; vm_compute; reflexivity.
  - lia.
Defined.

(** * Further properties *)

(** ** White space around a cell *)

Lemma lstrip_spaces (pre s : str) :
  forallb is_space pre = true -> lstrip (pre ++ s) = lstrip s.
Proof.
  induction pre as [|c pre IH]; cbn [forallb app]; intros H; [reflexivity|].
  apply andb_true_iff in H as [Hc Hp]. cbn [lstrip]. rewrite Hc. auto.
Qed.

Lemma lstrip_app_last (s : str) (c : char) :
  is_space c = false -> lstrip (s ++ [c]) = lstrip s ++ [c].
Proof.
  intros Hc. induction s as [|x s IH]; cbn [app lstrip].
  - rewrite Hc. reflexivity.
  - destruct (is_space x); [exact IH | reflexivity].
Qed.

Lemma lstrip_idem (s : str) : lstrip (lstrip s) = lstrip s.
Proof.
  induction s as [|c s IH]; [reflexivity|]. cbn [lstrip].
  destruct (is_space c) eqn:E; [exact IH|]. cbn [lstrip]. rewrite E. reflexivity.
Qed.

Lemma lstrip_app (s t : str) :
  lstrip (s ++ t) = match lstrip s with [] => lstrip t | _ => lstrip s ++ t end.
Proof.
  induction s as [|c s IH]; cbn [app lstrip].
  - destruct (lstrip t); reflexivity.
  - destruct (is_space c); [exact IH | reflexivity].
Qed.

Lemma forallb_rev {A : Type} (f : A -> bool) (l : list A) :
  forallb f (rev l) = forallb f l.
Proof.
  induction l as [|a l IH]; [reflexivity|]. cbn [rev forallb].
  rewrite forallb_app, IH. cbn [forallb]. rewrite andb_true_r. apply andb_comm.
Qed.

Lemma rstrip_spaces (s post : str) :
  forallb is_space post = true -> rstrip (s ++ post) = rstrip s.
Proof.
  intros H. unfold rstrip. rewrite rev_app_distr, lstrip_spaces; [reflexivity|].
  rewrite forallb_rev. exact H.
Qed.

Lemma lstrip_all_spaces (s : str) : lstrip s = [] -> forallb is_space s = true.
Proof.
  induction s as [|c s IH]; [reflexivity|]. cbn [lstrip forallb].
  destruct (is_space c); [exact IH | discriminate].
Qed.

Lemma rstrip_all_spaces (s : str) : forallb is_space s = true -> rstrip s = [].
Proof.
  intros H. unfold rstrip.
  rewrite <- (app_nil_r (rev s)), lstrip_spaces by (rewrite forallb_rev; exact H).
  reflexivity.
Qed.

Lemma strip_surrounded (pre s post : str) :
  forallb is_space pre = true -> forallb is_space post = true ->
  strip (pre ++ s ++ post) = strip s.
Proof.
  intros Hpre Hpost. unfold strip. rewrite lstrip_spaces by exact Hpre.
  rewrite lstrip_app. destruct (lstrip s) as [|c t] eqn:E.
  - rewrite (rstrip_all_spaces (lstrip post)); [reflexivity|].
    clear -Hpost. induction post as [|x post IH]; [reflexivity|].
    cbn [forallb] in Hpost. apply andb_true_iff in Hpost as [Hx Hp].
    cbn [lstrip]. rewrite Hx. auto.
  - apply rstrip_spaces. exact Hpost.
Qed.

Lemma rstrip_idem (s : str) : rstrip (rstrip s) = rstrip s.
Proof. unfold rstrip. rewrite rev_involutive, lstrip_idem. reflexivity. Qed.

Lemma lstrip_rstrip_lstrip (s : str) : lstrip (rstrip (lstrip s)) = rstrip (lstrip s).
Proof.
  destruct (lstrip s) as [|c t] eqn:E; [reflexivity|].
  assert (is_space c = false) as Hc.
  { clear -E. induction s as [|x s IH]; [discriminate|]. cbn [lstrip] in E.
    destruct (is_space x) eqn:Ex; [auto|]. inversion E; subst. exact Ex. }
  unfold rstrip. cbn [rev]. rewrite lstrip_app_last by exact Hc.
  rewrite rev_app_distr. cbn [rev app lstrip]. rewrite Hc. reflexivity.
Qed.

Lemma strip_idem (s : str) : strip (strip s) = strip s.
Proof. unfold strip. rewrite lstrip_rstrip_lstrip, rstrip_idem. reflexivity. Qed.

(** X1: white space before and after the text of a cell never changes what
    the cell resolves to (or whether [parse_date] raises). *)
Theorem parse_date_ignores_surrounding_space (pre s post : str) :
  forallb is_space pre = true -> forallb is_space post = true ->
  parse_date (Str (pre ++ s ++ post)) = parse_date (Str s).
Proof.
  intros Hpre Hpost. unfold parse_date.
  rewrite (strip_surrounded pre s post Hpre Hpost). reflexivity.
Qed.

Lemma parse_date_ignores_surrounding_space_witness :
  parse_date (Str (u "  " ++ u "2024.05" ++ [9; 10]))
  = parse_date (Str (u "2024.05")).
Proof.
  apply parse_date_ignores_surrounding_space; vm_compute; reflexivity.
Defined.

(** ** The rows of the chart *)

Lemma filter_filter {A : Type} (p q : A -> bool) (l : list A) :
  filter q (filter p l) = filter (fun x => p x && q x) l.
Proof.
  induction l as [|a l IH]; [reflexivity|]. cbn [filter].
  destruct (p a); cbn [filter andb]; [destruct (q a)|]; rewrite IH; reflexivity.
Qed.

Lemma kept_sources (kept : list row) (ends starts : list datetime) :
  Forall2 (fun r e => parse_date (end_date r) = Ret e) kept ends ->
  Forall2 (fun e s => minus_lookahead e = Ret s) ends starts ->
  map source
    (filter (fun r => resolved (start r) && resolved (finish r))
       (map (fun '(r, e, s) => mkResolved r e s)
            (combine (combine kept ends) starts)))
  = filter (fun r => match parse_date (end_date r) with
                     | Ret (Ts _) => true
                     | _ => false
                     end) kept.
Proof.
  intros H. revert starts.
  induction H as [|r e kept ends Hre _ IH]; intros starts Hs.
  - reflexivity.
  - inversion Hs as [|e' s ends' starts' Hes Hs']; subst.
    cbn [combine map filter start finish]. rewrite Hre.
    destruct e as [t|].
    + unfold minus_lookahead in Hes.
      destruct (ts_sub t (timedelta 14 0)) as [t'|]; [|discriminate].
      cbn [bind] in Hes. inversion Hes; subst.
      cbn [resolved andb map source]. f_equal. apply IH. exact Hs'.
    + cbn in Hes. inversion Hes; subst. cbn [resolved andb]. apply IH. exact Hs'.
Qed.

(** X2: when the derivation of lines 129-132 goes through, the rows it
    keeps are, in the order of the table, exactly the rows whose name and
    end-date cells are present and whose end date resolves to a timestamp:
    unresolved rows are dropped, nothing else is, nothing is reordered. *)
Theorem derive_rows_keeps_charted (rows : list row) (out : list resolved_row) :
  derive_rows rows = Ret out -> map source out = filter charted rows.
Proof.
  intros Hd. unfold derive_rows in Hd.
  set (kept := filter _ rows) in Hd.
  destruct (mapM _ kept) as [ends|] eqn:He; cbn [bind] in Hd; [|discriminate].
  destruct (mapM minus_lookahead ends) as [starts|] eqn:Hs; cbn [bind] in Hd;
    [|discriminate].
  inversion Hd; subst out; clear Hd.
  apply mapM_Forall2 in He. apply mapM_Forall2 in Hs.
  rewrite (kept_sources kept ends starts He Hs).
  subst kept. rewrite filter_filter. reflexivity.
Qed.

Lemma derive_rows_keeps_charted_witness :
  map source
    [mkResolved (mkRow (Str (u "공모전")) (Str (u "2024.03.01")) Missing)
       (Ts (stamp 2024 3 1 0 0 0)) (Ts (stamp 2024 2 16 0 0 0))]
  = filter charted
      [mkRow (Str (u "입찰")) (Str (u "실행중")) (Str (u "김"));
       mkRow (Str (u "공모전")) (Str (u "2024.03.01")) Missing;
       mkRow Missing (Str (u "2024.03.02")) Missing].
Proof.
  apply derive_rows_keeps_charted. vm_compute. reflexivity.
Defined.

Lemma mapM_raise {A B : Type} (f : A -> outcome B) (l : list A) (a : A) (e : exn) :
  In a l -> f a = Raise e -> exists e', mapM f l = Raise e'.
Proof.
  induction l as [|x l IH]; intros Hin Hf; [contradiction|].
  cbn [mapM]. destruct Hin as [-> | Hin].
  - rewrite Hf. exists e. reflexivity.
  - destruct (f x); [|eexists; reflexivity]. cbn [bind].
    destruct (IH Hin Hf) as [e' ->]. exists e'. reflexivity.
Qed.

(** X3: one cell on which [parse_date] raises aborts the whole derivation:
    if a row with a name and an end-date cell makes [parse_date] raise, the
    derivation raises and no row at all is charted. *)
Theorem derive_rows_aborts_on_one_cell (rows : list row) (r : row) (e : exn) :
  In r rows ->
  notna (business_name r) = true -> notna (end_date r) = true ->
  parse_date (end_date r) = Raise e ->
  exists e', derive_rows rows = Raise e'.
Proof.
  intros Hin Hn He Hp. unfold derive_rows.
  destruct (mapM_raise (fun r => parse_date (end_date r))
              (filter (fun r => notna (business_name r) && notna (end_date r)) rows)
              r e) as [e' ->]; [|exact Hp|exists e'; reflexivity].
  apply filter_In. split; [exact Hin|]. rewrite Hn, He. reflexivity.
Qed.

Lemma derive_rows_aborts_on_one_cell_witness :
  exists e',
    derive_rows [mkRow (Str (u "공모전")) (Str (u "2024.03.01")) Missing;
                 mkRow (Str (u "입찰")) (Str (u "2024.13")) Missing]
    = Raise e'.
Proof.
  apply (derive_rows_aborts_on_one_cell _
           (mkRow (Str (u "입찰")) (Str (u "2024.13")) Missing) ValueError).
  - right. left. reflexivity.
  - reflexivity.
  - reflexivity.
  - vm_compute. reflexivity.
Defined.

(** ** The header row *)

Lemma header_split_some (raw : list (list cell)) (header : list cell)
    (rest : list (list cell)) :
  header_split raw = Some (header, rest) <->
  exists before,
    raw = before ++ header :: rest /\
    names_business header = true /\
    Forall (fun r => names_business r = false) before.
Proof.
  induction raw as [|r raw IH]; cbn [header_split].
  - split; [discriminate | intros [[|x b] [H _]]; discriminate].
  - destruct (names_business r) eqn:E.
    + split.
      * intros H; inversion H; subst. exists []. auto.
      * intros [[|x b] [H [Hm Hb]]]; inversion H; subst; [reflexivity|].
        inversion Hb; congruence.
    + rewrite IH. split.
      * intros [b [-> [Hm Hb]]]. exists (r :: b). auto.
      * intros [[|x b] [H [Hm Hb]]]; inversion H; subst; [congruence|].
        inversion Hb; subst. exists b. auto.
Qed.

Lemma header_split_none (raw : list (list cell)) :
  header_split raw = None <-> Forall (fun r => names_business r = false) raw.
Proof.
  induction raw as [|r raw IH]; cbn [header_split].
  - split; auto.
  - destruct (names_business r) eqn:E.
    + split; [discriminate | intros H; inversion H; congruence].
    + rewrite IH. split; [auto | intros H; inversion H; auto].
Qed.

(** X4: [load_data] takes as header the first row with a cell whose text
    contains 사업명: the rows above it are discarded, all the rows below it
    are data, even those that name 사업명 again; a table without such a row
    loads as the empty frame. *)
Theorem load_data_first_header_row :
  (forall before header rest,
     Forall (fun r => forall c, In c r ->
                        contains (u "사업명") (label_text c) = false) before ->
     (exists c, In c header /\ contains (u "사업명") (label_text c) = true) ->
     load_data (before ++ header :: rest) = mkFrame header rest) /\
  (forall raw,
     Forall (fun r => forall c, In c r ->
                        contains (u "사업명") (label_text c) = false) raw ->
     load_data raw = empty_frame /\ is_empty (load_data raw) = true).
Proof.
  assert (Hno : forall l,
    Forall (fun r => forall c, In c r ->
                       contains (u "사업명") (label_text c) = false) l ->
    Forall (fun r => names_business r = false) l).
  { intros l H. eapply Forall_impl; [|exact H]. intros r Hr. unfold names_business.
    destruct (existsb _ r) eqn:E; [|reflexivity].
    apply existsb_exists in E as [c [Hc Hk]]. rewrite (Hr c Hc) in Hk. discriminate. }
  split.
  - intros before header rest Hb [c [Hc Hk]]. unfold load_data.
    assert (header_split (before ++ header :: rest) = Some (header, rest)) as ->;
      [|reflexivity].
    apply header_split_some. exists before. split; [reflexivity|]. split; [|auto].
    unfold names_business. apply existsb_exists. exists c. auto.
  - intros raw H. unfold load_data.
    rewrite (proj2 (header_split_none raw) (Hno raw H)). split; reflexivity.
Qed.

Lemma load_data_first_header_row_witness :
  load_data ([[Str (u "2024년 일정"); Missing]]
             ++ [Str (u "No"); Str (u "사업명(가칭)")]
             :: [[Str (u "1"); Str (u "사업명 미정")]])
  = mkFrame [Str (u "No"); Str (u "사업명(가칭)")]
            [[Str (u "1"); Str (u "사업명 미정")]].
Proof.
  apply (proj1 load_data_first_header_row).
  - constructor; [|constructor]. intros c [<- | [<- | []]]; vm_compute; reflexivity.
  - exists (Str (u "사업명(가칭)")). split; [right; left; reflexivity|].
    vm_compute. reflexivity.
Defined.

(** X5: after a load that did not come back empty, the column resolver
    always finds a business-name column among the labels, whatever the
    case mapping, as long as lowering keeps an occurrence of 사업명 an
    occurrence (Hangul has no case). *)
Theorem loaded_frame_has_business_column (lower : str -> str)
    (raw : list (list cell)) :
  (forall s, contains (u "사업명") s = true ->
             contains (lower (u "사업명")) (lower s) = true) ->
  is_empty (load_data raw) = false ->
  exists col,
    find_column lower (columns (load_data raw)) [u "사업명"] = Some col /\
    In col (columns (load_data raw)).
Proof.
  intros Hlow Hne. unfold load_data in *.
  destruct (header_split raw) as [[header rest]|] eqn:E; [|discriminate].
  cbn [columns] in *.
  apply header_split_some in E as [before [_ [Hn _]]].
  unfold names_business in Hn. apply existsb_exists in Hn as [c [Hc Hk]].
  destruct (find_column lower header [u "사업명"]) as [col|] eqn:F.
  - exists col. split; [reflexivity|].
    apply find_column_some in F as [b [a [-> _]]].
    apply in_or_app. right. left. reflexivity.
  - exfalso. apply find_column_none in F. rewrite Forall_forall in F.
    specialize (F c Hc). unfold mentions in F. cbn [existsb] in F.
    rewrite (Hlow _ Hk) in F. discriminate.
Qed.

Lemma loaded_frame_has_business_column_witness :
  exists col,
    find_column (fun s => s)
      (columns (load_data [[Str (u "No"); Str (u "사업명")];
                           [Str (u "1"); Str (u "공모전")]]))
      [u "사업명"] = Some col /\
    In col (columns (load_data [[Str (u "No"); Str (u "사업명")];
                                [Str (u "1"); Str (u "공모전")]])).
Proof.
  apply (loaded_frame_has_business_column (fun s => s)).
  - intros s H. exact H.
  - vm_compute. reflexivity.
Defined.

(** ** The D-day label *)

Lemma digits_fuel_spec (fuel : nat) (n : Z) (acc : str) :
  0 <= n < 2 ^ Z.of_nat fuel ->
  exists ds,
    digits_fuel fuel n acc = ds ++ acc /\
    Forall digitc ds /\
    forall a0,
      fold_left (fun a c => 10 * a + (c - 48)) ds a0
      = a0 * 10 ^ Z.of_nat (List.length ds) + n.
Proof.
  revert n acc. induction fuel as [|k IH]; intros n acc Hn.
  - exists []. cbn [digits_fuel app]. split; [reflexivity|]. split; [constructor|].
    intros a0. cbn [fold_left List.length].
    change (Z.of_nat 0) with 0 in *. rewrite Z.pow_0_r in *. lia.
  - cbn [digits_fuel].
    pose proof (Z.div_mod n 10 ltac:(lia)) as Hdm.
    pose proof (Z.mod_pos_bound n 10 ltac:(lia)) as Hmod.
    destruct (Z.ltb_spec n 10) as [Hlt|Hge].
    + exists [48 + n mod 10]. split; [reflexivity|].
      rewrite Z.mod_small in * by lia.
      split; [repeat constructor; unfold digitc; lia|].
      intros a0. cbn [fold_left List.length].
      change (Z.of_nat 1) with 1. rewrite Z.pow_1_r. lia.
    + assert (0 <= n / 10 < 2 ^ Z.of_nat k) as Hq.
      { rewrite Nat2Z.inj_succ, Z.pow_succ_r in Hn by lia.
        split; [apply Z.div_pos; lia|].
        apply Z.div_lt_upper_bound; lia. }
      destruct (IH (n / 10) ((48 + n mod 10) :: acc) Hq) as (ds & E & Hd & Hv).
      exists (ds ++ [48 + n mod 10]). split; [|split].
      * rewrite E, <- app_assoc. reflexivity.
      * apply Forall_app. split; [exact Hd|].
        repeat constructor; unfold digitc; lia.
      * intros a0. rewrite fold_left_app, Hv. cbn [fold_left].
        rewrite length_app, Nat2Z.inj_add, Z.pow_add_r by lia.
        cbn [List.length]. change (Z.of_nat 1) with 1. rewrite Z.pow_1_r. lia.
Qed.

(** [str] of a natural number writes it in ASCII digits. *)
Lemma str_of_int_reads_back (n : Z) :
  0 <= n ->
  Forall digitc (str_of_int n) /\ int_of_digits (str_of_int n) = n.
Proof.
  intros Hn. unfold str_of_int, int_of_digits.
  rewrite (proj2 (Z.ltb_ge n 0)) by lia.
  destruct (digits_fuel_spec (S (Z.to_nat (Z.log2 n))) n []) as (ds & E & Hd & Hv).
  { split; [lia|]. rewrite Nat2Z.inj_succ, Z2Nat.id by apply Z.log2_nonneg.
    destruct (Z.eq_dec n 0) as [->|Hnz]; [cbn; lia|].
    apply Z.log2_spec. lia. }
  rewrite E, app_nil_r. split; [exact Hd|]. rewrite Hv. lia.
Qed.

(** X6: when the difference between the end date and now fits a
    [Timedelta], the label is [D-n] exactly when the end moment is not
    before now, [n] being the whole days left (rounded down), and [D+n]
    otherwise, [n] being the days elapsed rounded up, at least 1; the
    number is written in plain decimal digits. *)
Theorem d_day_text_whole_days (end_ts now : Z) :
  in_bounds (end_ts - now) = true ->
  exists n,
    d_day_text end_ts now
    = Ret ((if now <=? end_ts then u "D-" else u "D+") ++ str_of_int n) /\
    int_of_digits (str_of_int n) = n /\
    (now <= end_ts ->
     n * ns_per_day <= end_ts - now < (n + 1) * ns_per_day) /\
    (end_ts < now ->
     1 <= n /\ (n - 1) * ns_per_day < now - end_ts <= n * ns_per_day).
Proof.
  intros Hb. unfold d_day_text, d_day. rewrite Hb. cbn [bind].
  pose proof (Z.div_mod (end_ts - now) ns_per_day ltac:(discriminate)) as Hdm.
  pose proof (Z.mod_pos_bound (end_ts - now) ns_per_day ltac:(reflexivity)) as Hmod.
  set (q := (end_ts - now) / ns_per_day) in *.
  assert (0 < ns_per_day) as Hday by reflexivity.
  destruct (Z.leb_spec now end_ts) as [Hle|Hlt].
  - assert (0 <= q) by nia.
    exists q. rewrite (proj2 (Z.leb_le 0 q)) by lia.
    split; [reflexivity|]. split; [apply str_of_int_reads_back; lia|].
    split; [intros _; nia | lia].
  - assert (q < 0) by nia.
    exists (- q). rewrite (proj2 (Z.leb_gt 0 q)) by lia.
    split; [reflexivity|]. split; [apply str_of_int_reads_back; lia|].
    split; [lia | intros _; nia].
Qed.

Lemma d_day_text_whole_days_witness :
  exists n,
    d_day_text (stamp 2024 3 20 0 0 0) (stamp 2024 3 15 10 0 0)
    = Ret ((if stamp 2024 3 15 10 0 0 <=? stamp 2024 3 20 0 0 0
            then u "D-" else u "D+") ++ str_of_int n) /\
    int_of_digits (str_of_int n) = n.
Proof.
  destruct (d_day_text_whole_days (stamp 2024 3 20 0 0 0) (stamp 2024 3 15 10 0 0))
    as (n & H1 & H2 & _).
  - vm_compute. reflexivity.
  - exists n. split; assumption.
Defined.

(** ** What [parse_date] returns and where it raises *)

Lemma build_in_bounds (y m d h mi s t : Z) :
  build y m d h mi s = Ret (Ts t) -> in_bounds t = true.
Proof.
  unfold build. destruct (negb (valid_dateb y m d)); [discriminate|].
  destruct (60 <=? s); [discriminate|].
  destruct (in_bounds (stamp y m d h mi s)) eqn:E; [|discriminate].
  intros H; inversion H; subst. exact E.
Qed.

Lemma to_datetime_format_in_bounds (fmt s : str) (t : Z) :
  to_datetime_format fmt s = Ret (Ts t) -> in_bounds t = true.
Proof.
  unfold to_datetime_format. destruct (existsb _ nat_strings); [discriminate|].
  destruct (run _ _ _) as [[f [|? ?]]|]; try discriminate.
  apply build_in_bounds.
Qed.

Lemma to_datetime_in_bounds (s : str) (t : Z) :
  to_datetime s = Ret (Ts t) -> in_bounds t = true.
Proof.
  unfold to_datetime.
  do 10 (destruct s as [|? s]; [discriminate|]).
  destruct s; [|discriminate]. apply build_in_bounds.
Qed.

Lemma ts_sub_in_bounds (t delta r : Z) :
  ts_sub t delta = Ret r -> in_bounds r = true.
Proof.
  unfold ts_sub. destruct (in_bounds (t - delta)) eqn:E; [|discriminate].
  intros H; inversion H; subst. exact E.
Qed.

Lemma ts_add_in_bounds (t delta r : Z) :
  ts_add t delta = Ret r -> in_bounds r = true.
Proof.
  unfold ts_add. destruct (in_bounds (t + delta)) eqn:E; [|discriminate].
  intros H; inversion H; subst. exact E.
Qed.

Lemma try_formats_in_bounds (fmts : list str) (s : str) (t : Z) :
  try_formats fmts s = Ret (Ts t) -> in_bounds t = true.
Proof.
  induction fmts as [|fmt fmts IH]; cbn [try_formats]; [discriminate|].
  destruct (to_datetime_format fmt s) as [dt|e] eqn:E.
  - intros H; inversion H; subst. exact (to_datetime_format_in_bounds _ _ _ E).
  - destruct e; exact IH.
Qed.

Lemma try_formats_returns (fmts : list str) (s : str) :
  exists dt, try_formats fmts s = Ret dt.
Proof.
  induction fmts as [|fmt fmts IH]; cbn [try_formats]; [eexists; reflexivity|].
  destruct (to_datetime_format fmt s) as [dt|e]; [eexists; reflexivity|].
  destruct e; exact IH.
Qed.

Lemma later_rules_in_bounds (s : str) (t : Z) :
  later_rules s = Ret (Ts t) -> in_bounds t = true.
Proof.
  unfold later_rules. destruct (is_year s); [apply to_datetime_format_in_bounds|].
  destruct (is_year_month s); [apply to_datetime_format_in_bounds|].
  apply try_formats_in_bounds.
Qed.

Lemma meridiem_attempt_in_bounds (a : meridiem) (s : str) (t : Z) :
  meridiem_attempt a s = Ret (Ts t) -> in_bounds t = true.
Proof.
  unfold meridiem_attempt.
  destruct (to_datetime_format _ s) as [[t0|]|] eqn:E; cbn [bind];
    try discriminate.
  pose proof (to_datetime_format_in_bounds _ _ _ E) as Hb.
  destruct a.
  - destruct (hour_of t0 =? 12).
    + destruct (ts_sub t0 _) as [r|] eqn:Er; cbn [bind]; [|discriminate].
      intros H; inversion H; subst. exact (ts_sub_in_bounds _ _ _ Er).
    + intros H; inversion H; subst. exact Hb.
  - destruct (negb (hour_of t0 =? 12)).
    + destruct (ts_add t0 _) as [r|] eqn:Er; cbn [bind]; [|discriminate].
      intros H; inversion H; subst. exact (ts_add_in_bounds _ _ _ Er).
    + intros H; inversion H; subst. exact Hb.
Qed.

(** X7: every timestamp [parse_date] returns lies within the range of
    nanosecond timestamps, also after the one-day step of the before rule
    and the twelve-hour steps of the meridiem rule. *)
Theorem parse_date_in_bounds (c : cell) (t : Z) :
  parse_date c = Ret (Ts t) -> in_bounds t = true.
Proof.
  destruct c as [|s]; cbn [parse_date]; [discriminate|].
  destruct (existsb _ sentinels); [discriminate|].
  unfold before_rule, event_rule.
  destruct (contains (u "이전") (strip s)).
  - destruct (search (date_at 45) (strip s)) as [g|].
    + destruct (to_datetime g) as [[t0|]|] eqn:E; cbn [bind]; try discriminate.
      destruct (ts_sub t0 _) as [r|] eqn:Er; cbn [bind]; [|discriminate].
      intros H; inversion H; subst. exact (ts_sub_in_bounds _ _ _ Er).
    + destruct (contains (u "행사") (strip s)).
      * destruct (search (date_at 46) (strip s)) as [g|];
          [apply to_datetime_in_bounds|].
        destruct (search am_pm_at (strip s)) as [a|];
          [|apply later_rules_in_bounds].
        destruct (meridiem_attempt a _) as [dt|e] eqn:E.
        -- intros H; inversion H; subst. exact (meridiem_attempt_in_bounds _ _ _ E).
        -- destruct e; apply later_rules_in_bounds.
      * destruct (search am_pm_at (strip s)) as [a|];
          [|apply later_rules_in_bounds].
        destruct (meridiem_attempt a _) as [dt|e] eqn:E.
        -- intros H; inversion H; subst. exact (meridiem_attempt_in_bounds _ _ _ E).
        -- destruct e; apply later_rules_in_bounds.
  - destruct (contains (u "행사") (strip s)).
    + destruct (search (date_at 46) (strip s)) as [g|];
        [apply to_datetime_in_bounds|].
      destruct (search am_pm_at (strip s)) as [a|];
        [|apply later_rules_in_bounds].
      destruct (meridiem_attempt a _) as [dt|e] eqn:E.
      * intros H; inversion H; subst. exact (meridiem_attempt_in_bounds _ _ _ E).
      * destruct e; apply later_rules_in_bounds.
    + destruct (search am_pm_at (strip s)) as [a|];
        [|apply later_rules_in_bounds].
      destruct (meridiem_attempt a _) as [dt|e] eqn:E.
      * intros H; inversion H; subst. exact (meridiem_attempt_in_bounds _ _ _ E).
      * destruct e; apply later_rules_in_bounds.
Qed.

Lemma parse_date_in_bounds_witness :
  in_bounds (stamp 2024 3 15 13 30 0) = true.
Proof.
  apply (parse_date_in_bounds (Str (u "2024.03.15 오후 01:30"))).
  vm_compute. reflexivity.
Defined.

(** X8: [parse_date] raises only in the before rule, the event rule, the
    bare year rule and the bare year-month rule: on a cell whose stripped
    text contains neither 이전 nor 행사 and whose text for the later rules
    (without the meridiem marker, if one is found) is neither four digits
    nor four digits, a dot and two digits, it returns a timestamp or
    [NaT]. *)
Theorem parse_date_returns_outside_four_rules (s : str) :
  contains (u "이전") (strip s) = false ->
  contains (u "행사") (strip s) = false ->
  is_year (later_text (strip s)) = false ->
  is_year_month (later_text (strip s)) = false ->
  exists dt, parse_date (Str s) = Ret dt.
Proof.
  intros H1 H2 Hy Hym. cbn [parse_date].
  destruct (existsb _ sentinels); [eexists; reflexivity|].
  unfold before_rule, event_rule. rewrite H1, H2.
  assert (forall r, is_year r = false -> is_year_month r = false ->
                    exists dt, later_rules r = Ret dt) as Hl.
  { intros r Hy' Hym'. unfold later_rules. rewrite Hy', Hym'.
    apply try_formats_returns. }
  unfold later_text in Hy, Hym.
  destruct (search am_pm_at (strip s)) as [a|]; [|apply Hl; assumption].
  destruct (meridiem_attempt a _) as [dt|e]; [eexists; reflexivity|].
  destruct e; apply Hl; assumption.
Qed.

Lemma parse_date_returns_outside_four_rules_witness :
  exists dt, parse_date (Str (u "3월 15일 오후 3시")) = Ret dt.
Proof.
  apply parse_date_returns_outside_four_rules; vm_compute; reflexivity.
Defined.

(** ** Cells of digits and separators *)

(** A text below the Hangul block whose ends are not white space goes
    straight to line 75. *)
Lemma plain_text_later_rules (c c' : char) (t s' : str) :
  c :: t = s' ++ [c'] -> is_space c = false -> is_space c' = false ->
  Forall (fun x => x < 44032) (c :: t) ->
  parse_date (Str (c :: t)) = later_rules (c :: t).
Proof.
  intros E Hc Hc' Hall. cbn [parse_date].
  rewrite (strip_keep c c' t s' E Hc Hc').
  assert (c < 44032) by (inversion Hall; assumption).
  rewrite not_sentinel_head by lia.
  destruct (plain_text_no_markers _ Hall) as (H1 & H2 & H3).
  unfold before_rule, event_rule. rewrite H1, H2, H3. reflexivity.
Qed.

Lemma first_of_month_valid (y m : Z) : 1 <= m <= 12 -> valid_date y m 1.
Proof.
  intros Hm. pose proof (days_in_month_bounds y m Hm). unfold valid_date. lia.
Qed.

Lemma build_valid (y m d h mi : Z) :
  valid_date y m d ->
  build y m d h mi 0
  = if in_bounds (stamp y m d h mi 0) then Ret (Ts (stamp y m d h mi 0))
    else Raise OutOfBoundsDatetime.
Proof.
  intros Hv. unfold build. rewrite (valid_dateb_true _ _ _ Hv). reflexivity.
Qed.

(** X9: a cell of four ASCII digits, a year from 0001 to 9999, resolves to
    January 1 of that year at 00:00 when a timestamp can hold that moment;
    otherwise the unguarded conversion of line 76 raises
    [OutOfBoundsDatetime] out of [parse_date]. *)
Theorem bare_year_resolves_or_raises (y : Z) :
  1 <= y <= 9999 ->
  parse_date (Str (d4 y))
  = if in_bounds (stamp y 1 1 0 0 0) then Ret (Ts (stamp y 1 1 0 0 0))
    else Raise OutOfBoundsDatetime.
Proof.
  intros Hy.
  destruct (d4_digits y) as (a & b & c & e & -> & Ha & Hb & Hc & He & Ey); [lia|].
  rewrite (plain_text_later_rules a e [b; c; e] [a; b; c]);
    [ | reflexivity | apply is_space_ascii_digit; assumption ..
      | unfold digitc in *; repeat constructor; lia ].
  unfold later_rules.
  assert (is_year [a; b; c; e] = true) as ->
    by (cbn [is_year at_end]; rewrite !is_digit_ascii by assumption; reflexivity).
  unfold to_datetime_format.
  rewrite not_nat_string_head by (unfold digitc in *; lia).
  change (compile_format (u "%Y")) with [pY].
  cbn [run]. rewrite re_Y_ok, Ey by assumption.
  apply (build_valid y 1 1 0 0). apply first_of_month_valid. lia.
Qed.

Lemma bare_year_resolves_or_raises_witness :
  parse_date (Str (d4 2024)) = Ret (Ts (stamp 2024 1 1 0 0 0)) /\
  parse_date (Str (d4 1492)) = Raise OutOfBoundsDatetime.
Proof.
  split.
  - exact (bare_year_resolves_or_raises 2024 ltac:(lia)).
  - exact (bare_year_resolves_or_raises 1492 ltac:(lia)).
Defined.

(** X10: a cell of four digits, a dot and two digits resolves to the first
    day of that month at 00:00 when the two digits are a month from 01 to
    12 and a timestamp can hold that moment; when no timestamp can, the
    unguarded conversion of line 79 raises [OutOfBoundsDatetime], and when
    the two digits are 00 or 13 to 99 it raises [ValueError]. *)
Theorem bare_year_month_resolves_or_raises (y m : Z) :
  1 <= y <= 9999 -> 0 <= m <= 99 ->
  parse_date (Str (d4 y ++ [46] ++ d2 m))
  = if (1 <=? m) && (m <=? 12)
    then if in_bounds (stamp y m 1 0 0 0) then Ret (Ts (stamp y m 1 0 0 0))
         else Raise OutOfBoundsDatetime
    else Raise ValueError.
Proof.
  intros Hy Hm.
  destruct (d4_digits y) as (a & b & c & e & -> & Ha & Hb & Hc & He & Ey); [lia|].
  destruct (d2_digits m Hm) as (f & g & -> & Hf & Hg & Em).
  cbn [app].
  rewrite (plain_text_later_rules a g [b; c; e; 46; f; g] [a; b; c; e; 46; f]);
    [ | reflexivity | apply is_space_ascii_digit; assumption ..
      | unfold digitc in *; repeat constructor; lia ].
  unfold later_rules.
  assert (is_year [a; b; c; e; 46; f; g] = false) as ->
    by (cbn [is_year at_end]; rewrite !andb_false_r; reflexivity).
  assert (is_year_month [a; b; c; e; 46; f; g] = true) as ->
    by (cbn [is_year_month at_end]; rewrite !is_digit_ascii by assumption;
        reflexivity).
  unfold to_datetime_format.
  rewrite not_nat_string_head by (unfold digitc in *; lia).
  change (compile_format (u "%Y.%m")) with [pY; lit 46; pm].
  cbn [run]. rewrite re_Y_ok, Ey by assumption. rewrite Z.eqb_refl.
  destruct (Z.leb_spec 1 m) as [H1|H1]; [destruct (Z.leb_spec m 12) as [H2|H2]|];
    cbn [andb].
  - rewrite (re_m_ok [] _ f g m _ Hf Hg Em ltac:(lia) eq_refl).
    apply (build_valid y m 1 0 0). apply first_of_month_valid. lia.
  - unfold re_m, two, one, alt, between. unfold digitc in *.
    rewrite !dv_ascii by (unfold digitc; lia).
    destruct (Z.eqb_spec 49 f); zbool; reflexivity.
  - assert (f = 48 /\ g = 48) as [-> ->] by (unfold digitc in *; lia).
    reflexivity.
Qed.

Lemma bare_year_month_resolves_or_raises_witness :
  parse_date (Str (d4 2024 ++ [46] ++ d2 5)) = Ret (Ts (stamp 2024 5 1 0 0 0)) /\
  parse_date (Str (d4 2024 ++ [46] ++ d2 0)) = Raise ValueError /\
  parse_date (Str (d4 2024 ++ [46] ++ d2 31)) = Raise ValueError.
Proof.
  split; [|split].
  - exact (bare_year_month_resolves_or_raises 2024 5 ltac:(lia) ltac:(lia)).
  - exact (bare_year_month_resolves_or_raises 2024 0 ltac:(lia) ltac:(lia)).
  - exact (bare_year_month_resolves_or_raises 2024 31 ltac:(lia) ltac:(lia)).
Defined.

(** ** Dates with a time of day *)

Ltac format_known :=
  repeat match goal with
  | |- context [compile_format ?f] =>
    let v := eval vm_compute in (compile_format f) in
    change (compile_format f) with v
  end.

Lemma re_H_ok {R : Type} (t : str) (k : Z -> str -> option R)
    (a b : char) (hh : Z) (r : R) :
  digitc a -> digitc b -> 10 * (a - 48) + (b - 48) = hh -> 0 <= hh <= 23 ->
  k hh t = Some r ->
  re_H (a :: b :: t) k = Some r.
Proof.
  intros Ha Hb Hh Hr Hk. unfold re_H, two, one, alt, between.
  unfold digitc in *.
  rewrite ?dv_ascii, ?is_digit_ascii by (unfold digitc; lia).
  rewrite Hh, Hk.
  assert (a = 48 \/ a = 49 \/ a = 50) as [-> | [-> | ->]] by lia;
    zbool; reflexivity.
Qed.

Lemma ws_plus_one {R : Type} (c : char) (t : str) (k : str -> option R) (r : R) :
  is_space c = false -> k (c :: t) = Some r ->
  ws_plus (32 :: c :: t) k = Some r.
Proof.
  intros Hc Hk. unfold ws_plus. change (is_space 32) with true.
  cbn [ws_star]. rewrite Hc. exact Hk.
Qed.

Section DateCell.

(** The ten characters of a zero-padded date with separator [sep]. *)
Variables (sep y m d : Z) (a b c e f g h i : char).
Hypothesis Hsep : sep < 48.
Hypotheses (Ha : digitc a) (Hb : digitc b) (Hc : digitc c) (He : digitc e).
Hypotheses (Hf : digitc f) (Hg : digitc g) (Hh : digitc h) (Hi : digitc i).
Hypothesis Ey : 1000 * (a - 48) + 100 * (b - 48) + 10 * (c - 48) + (e - 48) = y.
Hypothesis Em : 10 * (f - 48) + (g - 48) = m.
Hypothesis Ed : 10 * (h - 48) + (i - 48) = d.
Hypotheses (Hm : 1 <= m <= 12) (Hd : 1 <= d <= 31).

(** A format that starts with the date in this separator reads the date
    whole and goes on. *)
Lemma run_date_then (rest : list directive) (tail : str) (r : fields * str) :
  run rest (mkFields y m d None None 0 0 None) tail = Some r ->
  run (pY :: lit sep :: pm :: lit sep :: pd :: rest) no_fields
      (a :: b :: c :: e :: sep :: f :: g :: sep :: h :: i :: tail)
  = Some r.
Proof.
  intros Hr. cbn [run]. rewrite re_Y_ok, Ey by assumption. rewrite Z.eqb_refl.
  apply (re_m_ok _ _ f g m _ Hf Hg Em Hm).
  rewrite Z.eqb_refl.
  apply (re_d_ok _ _ h i d _ Hh Hi Ed Hd).
  exact Hr.
Qed.

(** A format that starts with the date in another separator fails. *)
Lemma run_other_separator (sep' : char) (rest : list directive) (tail : str) :
  sep <> sep' ->
  run (pY :: lit sep' :: rest) no_fields (a :: b :: c :: e :: sep :: tail) = None.
Proof.
  intros Hne. cbn [run]. rewrite re_Y_ok by assumption.
  rewrite (proj2 (Z.eqb_neq sep sep')) by exact Hne. reflexivity.
Qed.

End DateCell.

Lemma to_datetime_format_leftover (fmt : str) (c : char) (t : str)
    (fl : fields) (x : char) (rest : str) :
  c <> 78 -> c <> 110 ->
  run (compile_format fmt) no_fields (c :: t) = Some (fl, x :: rest) ->
  to_datetime_format fmt (c :: t) = Raise ValueError.
Proof.
  intros H1 H2 Hr. unfold to_datetime_format.
  rewrite not_nat_string_head, Hr by assumption. reflexivity.
Qed.

Lemma to_datetime_format_no_match (fmt : str) (c : char) (t : str) :
  c <> 78 -> c <> 110 ->
  run (compile_format fmt) no_fields (c :: t) = None ->
  to_datetime_format fmt (c :: t) = Raise ValueError.
Proof.
  intros H1 H2 Hr. unfold to_datetime_format.
  rewrite not_nat_string_head, Hr by assumption. reflexivity.
Qed.

Lemma to_datetime_format_whole (fmt : str) (c : char) (t : str) (fl : fields) :
  c <> 78 -> c <> 110 ->
  run (compile_format fmt) no_fields (c :: t) = Some (fl, []) ->
  to_datetime_format fmt (c :: t)
  = build (fY fl) (fm fl) (fd fl) (hour_field fl) (fM fl) (fS fl).
Proof.
  intros H1 H2 Hr. unfold to_datetime_format.
  rewrite not_nat_string_head, Hr by assumption. reflexivity.
Qed.

(** The battery on a date followed by a blank and a 24-hour time: with dots
    the fourth format reads it, with dashes the third. *)
Lemma battery_reads_24_hour_time (sep y m d hh mm : Z) :
  sep = 45 \/ sep = 46 ->
  1 <= y <= 9999 -> valid_date y m d -> 0 <= hh <= 23 -> 0 <= mm <= 59 ->
  in_bounds (stamp y m d hh mm 0) = true ->
  try_formats date_formats
    (d4 y ++ [sep] ++ d2 m ++ [sep] ++ d2 d ++ [32] ++ clock hh mm)
  = Ret (Ts (stamp y m d hh mm 0)).
Proof.
  intros Hsep Hy Hv Hh Hmm Hin. pose proof Hv as [Hm Hd].
  pose proof (build_ok y m d hh mm 0 Hv ltac:(lia) Hin) as Hbuild.
  pose proof (days_in_month_bounds y m Hm).
  destruct (date_digits sep y m d ltac:(lia) Hv)
    as (a & b & c & e & f & g & h & i & E & (?&?&?&?&Ey) & (?&?&Em) & (?&?&Ed)).
  destruct (d2_digits hh) as (p & q & Ehh & Hp & Hq & Eh); [lia|].
  destruct (d2_digits mm) as (v & w & Emm & Hv' & Hw & Emi); [lia|].
  unfold clock. rewrite Ehh, Emm.
  replace (d4 y ++ [sep] ++ d2 m ++ [sep] ++ d2 d ++ [32] ++ [p; q] ++ [58] ++ [v; w])
    with (a :: b :: c :: e :: sep :: f :: g :: sep :: h :: i
            :: [32; p; q; 58; v; w])
    by (rewrite !app_assoc in *; rewrite <- !app_assoc in E; rewrite <- !app_assoc;
        rewrite !app_assoc; rewrite !app_assoc in E; rewrite E; rewrite <- !app_assoc;
        reflexivity).
  assert (a <> 78 /\ a <> 110) as [Ha78 Ha110] by (unfold digitc in *; lia).
  assert (is_space p = false) as Hsp by (apply is_space_ascii_digit; assumption).
  (* the time of day, after the date *)
  assert (Htime : run [ws; pH; lit 58; pM] (mkFields y m d None None 0 0 None)
                      [32; p; q; 58; v; w]
                  = Some (mkFields y m d (Some hh) None mm 0 None, [])).
  { cbn [run].
    assert (re_H [p; q; 58; v; w]
              (fun v0 t => run [lit 58; pM]
                             (set_field pH v0 (mkFields y m d None None 0 0 None)) t)
            = Some (mkFields y m d (Some hh) None mm 0 None, [])) as Hre.
    { apply (re_H_ok _ _ p q hh); try assumption.
      cbn [run]. rewrite Z.eqb_refl.
      apply (re_M_ok _ _ v w mm); try assumption. reflexivity. }
    apply ws_plus_one; assumption. }
  unfold date_formats. cbn [try_formats].
  destruct Hsep as [-> | ->].
  - (* dashes *)
    rewrite (to_datetime_format_leftover (u "%Y-%m-%d") a _
               (mkFields y m d None None 0 0 None) 32 [p; q; 58; v; w] Ha78 Ha110)
      by (format_known;
          apply (run_date_then 45 y m d a b c e f g h i); auto; lia).
    cbn [isinstance_ValueError].
    rewrite (to_datetime_format_no_match (u "%Y.%m.%d") a _ Ha78 Ha110)
      by (format_known; apply run_other_separator; auto; lia).
    cbn [isinstance_ValueError].
    rewrite (to_datetime_format_whole (u "%Y-%m-%d %H:%M") a _
               (mkFields y m d (Some hh) None mm 0 None) Ha78 Ha110)
      by (format_known;
          apply (run_date_then 45 y m d a b c e f g h i); auto; lia).
    cbn [fY fm fd fM fS hour_field fI fH]. rewrite Hbuild. reflexivity.
  - (* dots *)
    rewrite (to_datetime_format_no_match (u "%Y-%m-%d") a _ Ha78 Ha110)
      by (format_known; apply run_other_separator; auto; lia).
    cbn [isinstance_ValueError].
    rewrite (to_datetime_format_leftover (u "%Y.%m.%d") a _
               (mkFields y m d None None 0 0 None) 32 [p; q; 58; v; w] Ha78 Ha110)
      by (format_known;
          apply (run_date_then 46 y m d a b c e f g h i); auto; lia).
    cbn [isinstance_ValueError].
    rewrite (to_datetime_format_no_match (u "%Y-%m-%d %H:%M") a _ Ha78 Ha110)
      by (format_known; apply run_other_separator; auto; lia).
    cbn [isinstance_ValueError].
    rewrite (to_datetime_format_whole (u "%Y.%m.%d %H:%M") a _
               (mkFields y m d (Some hh) None mm 0 None) Ha78 Ha110)
      by (format_known;
          apply (run_date_then 46 y m d a b c e f g h i); auto; lia).
    cbn [fY fm fd fM fS hour_field fI fH]. rewrite Hbuild. reflexivity.
Qed.

(** X11: a valid date in dots or in dashes, a blank and a 24-hour time
    [HH:MM] resolve to that moment of that date, when a timestamp can hold
    it: the third and fourth formats of the battery read them. *)
Theorem date_with_24_hour_time (sep y m d hh mm : Z) :
  sep = 45 \/ sep = 46 ->
  valid_date y m d -> 0 <= hh <= 23 -> 0 <= mm <= 59 ->
  in_bounds (stamp y m d hh mm 0) = true ->
  parse_date
    (Str (d4 y ++ [sep] ++ d2 m ++ [sep] ++ d2 d ++ [32] ++ clock hh mm))
  = Ret (Ts (stamp y m d hh mm 0)).
Proof.
  intros Hsep Hv Hh Hmm Hin.
  assert (1 <= y <= 9999) as Hy
    by (pose proof (in_bounds_year y m d hh mm 0 Hv
                      ltac:(lia) ltac:(lia) ltac:(lia) Hin); lia).
  pose proof (battery_reads_24_hour_time sep y m d hh mm Hsep
                Hy Hv Hh Hmm Hin) as Hbat.
  destruct (date_digits sep y m d ltac:(lia) Hv)
    as (a & b & c & e & f & g & h & i & E & (?&?&?&?&Ey) & (?&?&Em) & (?&?&Ed)).
  destruct (d2_digits hh) as (p & q & Ehh & Hp & Hq & Eh); [lia|].
  destruct (d2_digits mm) as (v & w & Emm & Hv' & Hw & Emi); [lia|].
  assert (d4 y ++ [sep] ++ d2 m ++ [sep] ++ d2 d ++ [32] ++ clock hh mm
          = [a; b; c; e; sep; f; g; sep; h; i; 32; p; q; 58; v; w]) as ET.
  { unfold clock. rewrite Ehh, Emm.
    change ([32] ++ [p; q] ++ [58] ++ [v; w]) with ([] ++ [32; p; q; 58; v; w]).
    rewrite !app_assoc. rewrite !app_assoc in E. rewrite E. reflexivity. }
  rewrite ET in *. unfold digitc in *.
  destruct Hsep as [-> | ->].
  - rewrite (plain_text_later_rules a w _
               [a; b; c; e; 45; f; g; 45; h; i; 32; p; q; 58; v]);
      [ | reflexivity | apply is_space_ascii_digit; unfold digitc; lia ..
        | repeat constructor; lia ].
    unfold later_rules; cbn [is_year is_year_month at_end].
    rewrite !andb_false_r. exact Hbat.
  - rewrite (plain_text_later_rules a w _
               [a; b; c; e; 46; f; g; 46; h; i; 32; p; q; 58; v]);
      [ | reflexivity | apply is_space_ascii_digit; unfold digitc; lia ..
        | repeat constructor; lia ].
    unfold later_rules; cbn [is_year is_year_month at_end].
    rewrite !andb_false_r. exact Hbat.
Qed.

Lemma date_with_24_hour_time_witness :
  parse_date (Str (d4 2024 ++ [46] ++ d2 3 ++ [46] ++ d2 15 ++ [32] ++ clock 14 5))
  = Ret (Ts (stamp 2024 3 15 14 5 0)).
Proof.
  apply (date_with_24_hour_time 46 2024 3 15 14 5).
  - right. reflexivity.
  - unfold valid_date. vm_compute. intuition discriminate.
  - lia.
  - lia.
  - vm_compute. reflexivity.
Defined.

(** ** A 24-hour time under a meridiem marker *)

Section Rejections.

Context {R : Type}.
Variables (t : str) (k : Z -> str -> option R).

Ltac both_none :=
  repeat match goal with
  | |- context [if ?c then None else None] => destruct c
  end; reflexivity.

(** A month or 12-hour field fails when what follows fails on both of its
    readings, the two digits and the first digit alone. *)
Lemma re_m_none (a b : char) :
  digitc a -> digitc b ->
  k (10 * (a - 48) + (b - 48)) t = None ->
  k (a - 48) (b :: t) = None ->
  re_m (a :: b :: t) k = None.
Proof.
  intros Ha Hb H2 H1. unfold re_m, two, one, alt.
  rewrite !dv_ascii, H2, H1 by assumption. both_none.
Qed.

Lemma re_d_none (a b : char) :
  digitc a -> digitc b ->
  k (10 * (a - 48) + (b - 48)) t = None ->
  k (a - 48) (b :: t) = None ->
  re_d (a :: b :: t) k = None.
Proof.
  intros Ha Hb H2 H1. pose proof Ha as Ha'. unfold digitc in Ha'.
  assert (a = 48 \/ a = 49 \/ a = 50 \/ a = 51 \/ a = 52 \/ a = 53 \/
          a = 54 \/ a = 55 \/ a = 56 \/ a = 57) as Hcase by lia.
  unfold re_d, two, one, alt.
  rewrite !dv_ascii, H2, H1 by assumption.
  repeat (destruct Hcase as [-> | Hcase]; [both_none|]). subst a. both_none.
Qed.

(** A 12-hour field rejects two digits outside 01..12 when what follows
    does not accept the second digit. *)
Lemma re_I_rejects (p q : char) :
  digitc p -> digitc q ->
  ~ 1 <= 10 * (p - 48) + (q - 48) <= 12 ->
  k (p - 48) (q :: t) = None ->
  re_m (p :: q :: t) k = None.
Proof.
  intros Hp Hq Hout H1. unfold re_m, two, one, alt, between.
  rewrite !dv_ascii, H1 by assumption. unfold digitc in *.
  destruct (Z.eqb_spec 49 p); destruct (Z.eqb_spec 48 p); try lia;
    zbool; cbn [andb]; both_none.
Qed.

End Rejections.

(** Rule 5's format does not match a date in dots, two blanks and a time
    whose hour is not a 12-hour one. *)
Lemma meridiem_format_rejects_24_hour (y m d hh mm : Z) :
  1 <= y <= 9999 -> valid_date y m d ->
  hh = 0 \/ 13 <= hh <= 23 -> 0 <= mm <= 59 ->
  to_datetime_format (u "%Y.%m.%d %I:%M")
    (dotted_date y m d ++ [32; 32] ++ clock hh mm)
  = Raise ValueError.
Proof.
  intros Hy Hv Hh Hmm. pose proof Hv as [Hm Hd].
  pose proof (days_in_month_bounds y m Hm).
  destruct (date_digits 46 y m d ltac:(lia) Hv)
    as (a & b & c & e & f & g & h & i & E & (?&?&?&?&Ey) & (?&?&Em) & (?&?&Ed)).
  destruct (d2_digits hh) as (p & q & Ehh & Hp & Hq & Eh); [lia|].
  destruct (d2_digits mm) as (v & w & Emm & Hv' & Hw & Emi); [lia|].
  unfold dotted_date, clock. rewrite E, Ehh, Emm. cbn [app].
  apply to_datetime_format_no_match; [unfold digitc in *; lia ..|].
  format_known. cbn [run]. rewrite re_Y_ok by assumption. rewrite Z.eqb_refl.
  assert (Hg46 : (g =? 46) = false) by (unfold digitc in *; zbool; reflexivity).
  assert (Hq58 : (q =? 58) = false) by (unfold digitc in *; zbool; reflexivity).
  apply re_m_none; try assumption; [|rewrite Hg46; reflexivity].
  rewrite Z.eqb_refl.
  apply re_d_none; try assumption.
  - unfold ws_plus. change (is_space 32) with true. cbn [ws_star].
    change (is_space 32) with true.
    rewrite (is_space_ascii_digit p) by assumption.
    rewrite re_I_rejects; try assumption; [| lia | rewrite Hq58; reflexivity].
    reflexivity.
  - unfold ws_plus. rewrite (is_space_ascii_digit i) by assumption. reflexivity.
Qed.

(** The path of a cell [YYYY.MM.DD <marker> hh:mm] to rule 5. *)
Lemma marker_cell_at_rule_5 (a : meridiem) (y m d hh mm : Z) :
  1 <= y <= 9999 -> valid_date y m d -> 0 <= hh <= 99 -> 0 <= mm <= 99 ->
  parse_date
    (Str (dotted_date y m d ++ [32] ++ marker a ++ [32] ++ clock hh mm))
  = match meridiem_attempt a (dotted_date y m d ++ [32; 32] ++ clock hh mm) with
    | Ret dt => Ret dt
    | Raise _ => later_rules (dotted_date y m d ++ [32; 32] ++ clock hh mm)
    end.
Proof.
  intros Hy Hv Hh Hmm.
  destruct (date_digits 46 y m d ltac:(lia) Hv)
    as (c1 & c2 & c3 & c4 & f & g & h & i & E & (?&?&?&?&Ey) & (?&?&Em) & (?&?&Ed)).
  destruct (d2_digits hh Hh) as (p & q & Ehh & ? & ? & Eh).
  destruct (d2_digits mm Hmm) as (v & w & Emm & ? & ? & Emi).
  unfold dotted_date, clock in *. rewrite E, Ehh, Emm in *.
  rewrite marker_text.
  set (x := match a with AM => 51204 | PM => 54980 end).
  assert (x = 51204 \/ x = 54980) as Hx by (destruct a; auto).
  cbn [app]. unfold digitc in *.
  assert (Es : strip [c1; c2; c3; c4; 46; f; g; 46; h; i; 32; 50724; x; 32;
                      p; q; 58; v; w]
               = [c1; c2; c3; c4; 46; f; g; 46; h; i; 32; 50724; x; 32;
                  p; q; 58; v; w]).
  { apply (strip_keep c1 w _
      [c1; c2; c3; c4; 46; f; g; 46; h; i; 32; 50724; x; 32; p; q; 58; v]);
      [reflexivity | apply is_space_ascii_digit; unfold digitc; lia ..]. }
  assert (Ew : without_marker a
                 [c1; c2; c3; c4; 46; f; g; 46; h; i; 32; 50724; x; 32;
                  p; q; 58; v; w]
               = [c1; c2; c3; c4; 46; f; g; 46; h; i; 32; 32; p; q; 58; v; w]).
  { unfold without_marker. rewrite marker_text. fold x.
    change [c1; c2; c3; c4; 46; f; g; 46; h; i; 32; 50724; x; 32; p; q; 58; v; w]
      with ([c1; c2; c3; c4; 46; f; g; 46; h; i; 32] ++ (50724 :: [x])
            ++ [32; p; q; 58; v; w]).
    rewrite replace_once by (cbn [In]; lia). cbn [app].
    apply (strip_keep c1 w _
      [c1; c2; c3; c4; 46; f; g; 46; h; i; 32; 32; p; q; 58; v]);
      [reflexivity | apply is_space_ascii_digit; unfold digitc; lia ..]. }
  rewrite (parse_date_at_rule_5 _ a); rewrite ?Es, ?Ew.
  - reflexivity.
  - unfold before_rule. change (u "이전") with [51060; 51204].
    rewrite contains_absent by (cbn [In]; lia). reflexivity.
  - unfold event_rule. change (u "행사") with [54665; 49324].
    rewrite contains_absent by (cbn [In]; lia). reflexivity.
  - change [c1; c2; c3; c4; 46; f; g; 46; h; i; 32; 50724; x; 32; p; q; 58; v; w]
      with ([c1; c2; c3; c4; 46; f; g; 46; h; i; 32] ++ (50724 :: [x])
            ++ [32; p; q; 58; v; w]).
    subst x. rewrite <- marker_text.
    apply search_am_pm_here. cbn [In]. lia.
Qed.

(** X12: under a meridiem marker, a time whose hour is 00 or 13 to 23 is
    not a 12-hour time: the conversion of rule 5 raises on it, nothing is
    added to or taken from the hour, and the cell is handed to the later
    rules as the date, the two blanks the marker leaves, and the time. *)
Theorem marker_with_24_hour_time (a : meridiem) (y m d hh mm : Z) :
  1 <= y <= 9999 -> valid_date y m d ->
  hh = 0 \/ 13 <= hh <= 23 -> 0 <= mm <= 59 ->
  parse_date
    (Str (dotted_date y m d ++ [32] ++ marker a ++ [32] ++ clock hh mm))
  = later_rules (dotted_date y m d ++ [32; 32] ++ clock hh mm).
Proof.
  intros Hy Hv Hh Hmm.
  rewrite (marker_cell_at_rule_5 a y m d hh mm Hy Hv ltac:(lia) ltac:(lia)).
  unfold meridiem_attempt.
  rewrite (meridiem_format_rejects_24_hour y m d hh mm Hy Hv Hh Hmm).
  reflexivity.
Qed.

Lemma marker_with_24_hour_time_witness :
  parse_date (Str (dotted_date 2024 3 15 ++ [32] ++ marker PM ++ [32] ++ clock 14 30))
  = later_rules (dotted_date 2024 3 15 ++ [32; 32] ++ clock 14 30).
Proof.
  apply (marker_with_24_hour_time PM 2024 3 15 14 30).
  - lia.
  - unfold valid_date. vm_compute. intuition discriminate.
  - right. lia.
  - lia.
Defined.

(** ** Rule 4: the event marker *)

Lemma search_dash_date_in_dotted (pre : str) (a b c e f g h i : char) :
  Forall (fun x => is_digit x = false) pre ->
  digitc a -> digitc b -> digitc c -> digitc e ->
  search (date_at 45) (pre ++ [a; b; c; e; 46; f; g; 46; h; i]) = None.
Proof.
  intros Hpre Ha Hb Hc He. rewrite search_date_skip by exact Hpre.
  cbn [search date_at]. rewrite !is_digit_ascii by assumption.
  reflexivity.
Qed.

(** X13: a cell made of the event marker 행사, any text without digits and
    a valid date in dots resolves to midnight of that date when a timestamp
    can hold it, whatever else the text between them says; when no
    timestamp can, the unguarded conversion of line 56 raises
    [OutOfBoundsDatetime]. *)
Theorem event_marker_date (y m d : Z) (sep : str) :
  1 <= y <= 9999 -> valid_date y m d ->
  Forall (fun x => is_digit x = false) sep ->
  parse_date (Str (u "행사" ++ sep ++ dotted_date y m d))
  = if in_bounds (stamp y m d 0 0 0) then Ret (Ts (stamp y m d 0 0 0))
    else Raise OutOfBoundsDatetime.
Proof.
  intros Hy Hv Hsep.
  destruct (date_digits 46 y m d ltac:(lia) Hv)
    as (a & b & c & e & f & g & h & i & E & (?&?&?&?&Ey) & (?&?&Em) & (?&?&Ed)).
  unfold dotted_date. rewrite E.
  change (u "행사") with [54665; 49324]. cbn [app].
  assert (Hpre : Forall (fun x => is_digit x = false) (54665 :: 49324 :: sep))
    by (constructor; [reflexivity | constructor; [reflexivity | exact Hsep]]).
  cbn [parse_date].
  rewrite (strip_keep 54665 i _
             (54665 :: 49324 :: sep ++ [a; b; c; e; 46; f; g; 46; h]));
    [| cbn [app]; rewrite <- app_assoc; reflexivity
     | reflexivity
     | apply is_space_ascii_digit; assumption ].
  rewrite not_sentinel_head by lia.
  change (54665 :: 49324 :: sep ++ [a; b; c; e; 46; f; g; 46; h; i])
    with ((54665 :: 49324 :: sep) ++ [a; b; c; e; 46; f; g; 46; h; i]).
  unfold before_rule.
  rewrite (search_dash_date_in_dotted _ a b c e f g h i) by assumption.
  destruct (contains (u "이전") _).
  all: unfold event_rule; change (u "행사") with [54665; 49324].
  all: rewrite <- !app_comm_cons; cbn [contains starts_with];
    rewrite !Z.eqb_refl; cbn [andb orb].
  all: change (54665 :: 49324 :: sep ++ [a; b; c; e; 46; f; g; 46; h; i])
    with ((54665 :: 49324 :: sep) ++ [a; b; c; e; 46; f; g; 46; h; i]).
  all: rewrite search_date_skip by exact Hpre.
  all: rewrite search_date_here by assumption.
  all: unfold replace; cbn [replace_from starts_with List.length Nat.pred app].
  all: unfold digitc in *; zbool; cbn [andb app replace_from].
  all: unfold to_datetime; rewrite !dv_ascii by (unfold digitc; lia).
  all: rewrite Ey, Em, Ed; apply build_valid; exact Hv.
Qed.

Lemma event_marker_date_witness :
  parse_date (Str (u "행사" ++ u " : " ++ dotted_date 2024 10 3))
  = Ret (Ts (stamp 2024 10 3 0 0 0)).
Proof.
  apply (event_marker_date 2024 10 3 (u " : ")).
  - lia.
  - unfold valid_date. vm_compute. intuition discriminate.
  - repeat constructor.
Defined.

(** ** Morning hours *)

(** X14: with the morning marker, the hours 01 to 11 of a 12-hour time are
    kept as they are, for every valid date whose day lies within the range
    of timestamps. *)
Theorem morning_hours_kept (y m d hh mm : Z) :
  valid_date y m d -> representable_day y m d ->
  1 <= hh <= 11 -> 0 <= mm <= 59 ->
  parse_date (Str (dotted_date y m d ++ u " 오전 " ++ clock hh mm))
  = Ret (Ts (stamp y m d hh mm 0)).
Proof.
  intros Hv Hrep Hh Hmm.
  pose proof (meridiem_cell_resolves AM y m d hh mm Hv Hrep ltac:(lia) Hmm) as H.
  unfold hour12 in H. rewrite (proj2 (Z.eqb_neq hh 12)) in H by lia.
  exact H.
Qed.

Lemma morning_hours_kept_witness :
  parse_date (Str (dotted_date 2024 3 15 ++ u " 오전 " ++ clock 9 5))
  = Ret (Ts (stamp 2024 3 15 9 5 0)).
Proof.
  apply (morning_hours_kept 2024 3 15 9 5).
  - unfold valid_date. vm_compute. intuition discriminate.
  - split; vm_compute; reflexivity.
  - lia.
  - lia.
Defined.

(** ** The date texts of a task *)

(** The year of a 400-year era from the day of the era. *)
Lemma yoe_ok (yoe doy : Z) :
  0 <= yoe <= 399 -> 0 <= doy <= 365 ->
  (doy = 365 -> (yoe + 1) mod 4 = 0 /\ ((yoe + 1) mod 100 <> 0 \/ yoe = 399)) ->
  (365 * yoe + yoe / 4 - yoe / 100 + doy
   - (365 * yoe + yoe / 4 - yoe / 100 + doy) / 1460
   + (365 * yoe + yoe / 4 - yoe / 100 + doy) / 36524
   - (365 * yoe + yoe / 4 - yoe / 100 + doy) / 146096) / 365 = yoe.
Proof. intros. Z.div_mod_to_equations. lia. Qed.

(** The date of a day given by its 400-year era, the year of the era and
    the day of the year, both counted from March 1. *)
Lemma civil_from_era (era yoe mp d : Z) :
  0 <= yoe <= 399 -> 0 <= mp <= 11 ->
  1 <= d -> (153 * mp + 2) / 5 + d - 1 < (153 * (mp + 1) + 2) / 5 ->
  ((153 * mp + 2) / 5 + d - 1 = 365 ->
   (yoe + 1) mod 4 = 0 /\ ((yoe + 1) mod 100 <> 0 \/ yoe = 399)) ->
  (153 * mp + 2) / 5 + d - 1 <= 365 ->
  civil_from_days (era * 146097 + (365 * yoe + yoe / 4 - yoe / 100
                                   + ((153 * mp + 2) / 5 + d - 1)) - 719468)
  = (yoe + era * 400 + (if (if mp <? 10 then mp + 3 else mp - 9) <=? 2 then 1 else 0),
     if mp <? 10 then mp + 3 else mp - 9, d).
Proof.
  intros Hy Hmp Hd Hslot Hleap Hdoy.
  set (doy := (153 * mp + 2) / 5 + d - 1) in *.
  assert (0 <= doy) by (subst doy; Z.div_mod_to_equations; lia).
  set (doe := 365 * yoe + yoe / 4 - yoe / 100 + doy).
  assert (0 <= doe < 146097) as Hdoe by (subst doe; Z.div_mod_to_equations; lia).
  unfold civil_from_days.
  replace (era * 146097 + doe - 719468 + 719468) with (doe + era * 146097) by lia.
  rewrite Z.div_add, (Z.div_small doe) by lia.
  replace (doe + era * 146097 - (0 + era) * 146097) with doe by lia.
  assert ((doe - doe / 1460 + doe / 36524 - doe / 146096) / 365 = yoe) as ->
    by (subst doe; apply yoe_ok; assumption || lia).
  replace (doe - (365 * yoe + yoe / 4 - yoe / 100)) with doy by (subst doe; lia).
  assert ((5 * doy + 2) / 153 = mp) as ->
    by (subst doy; Z.div_mod_to_equations; lia).
  replace (doy - (153 * mp + 2) / 5 + 1) with d by (subst doy; lia).
  reflexivity.
Qed.

Lemma leap_facts (y : Z) :
  if is_leapyear y
  then y mod 4 = 0 /\ (y mod 100 <> 0 \/ y mod 400 = 0)
  else y mod 4 <> 0 \/ (y mod 100 = 0 /\ y mod 400 <> 0).
Proof.
  unfold is_leapyear.
  destruct (Z.eqb_spec (y mod 4) 0); destruct (Z.eqb_spec (y mod 100) 0);
    destruct (Z.eqb_spec (y mod 400) 0); cbn [andb orb negb]; lia.
Qed.

(** [civil_from_days] inverts [days_from_civil] on every valid date. *)
Lemma civil_round_trip (y m d : Z) :
  valid_date y m d -> civil_from_days (days_from_civil y m d) = (y, m, d).
Proof.
  intros [Hm Hd].
  set (Y := y - (if m <=? 2 then 1 else 0)).
  set (mp := if m <=? 2 then m + 9 else m - 3).
  pose proof (Z.div_mod Y 400 ltac:(lia)) as HY.
  pose proof (Z.mod_pos_bound Y 400 ltac:(lia)) as HYb.
  assert (Hera : days_from_civil y m d
          = Y / 400 * 146097
            + (365 * (Y mod 400) + Y mod 400 / 4 - Y mod 400 / 100
               + ((153 * mp + 2) / 5 + d - 1)) - 719468
          /\ (153 * mp + 2) / 5 + d - 1 < (153 * (mp + 1) + 2) / 5
          /\ ((153 * mp + 2) / 5 + d - 1 <= 365)
          /\ ((153 * mp + 2) / 5 + d - 1 = 365 ->
              (Y mod 400 + 1) mod 4 = 0 /\
              ((Y mod 400 + 1) mod 100 <> 0 \/ Y mod 400 = 399))).
  { pose proof (leap_facts y) as L.
    unfold days_from_civil, days_before_year, days_before_month, days_in_month in *.
    destruct (is_leapyear y);
    destruct (month_cases m Hm)
      as [-> | [-> | [-> | [-> | [-> | [-> | [-> | [-> | [-> | [-> | [-> | ->]]]]]]]]]]];
    subst Y mp;
    repeat match goal with
    | |- context [month_days_upto ?b ?n] =>
      let v := eval vm_compute in (month_days_upto b n) in
      change (month_days_upto b n) with v
    | H : context [month_length ?b ?n] |- _ =>
      let v := eval vm_compute in (month_length b n) in
      change (month_length b n) with v in H
    | |- context [?a <=? 2] =>
      let v := eval vm_compute in (a <=? 2) in
      change (a <=? 2) with v
    end;
    cbv beta iota; Z.div_mod_to_equations; lia. }
  destruct Hera as (E & Hslot & Hdoy & Hleap).
  rewrite E, civil_from_era; try assumption; try lia.
  - subst Y mp. destruct (Z.leb_spec m 2).
    + replace (m + 9 <? 10) with false by (symmetry; apply Z.ltb_ge; lia).
      replace (m + 9 - 9) with m by lia.
      rewrite (proj2 (Z.leb_le m 2)) by lia. repeat f_equal. lia.
    + replace (m - 3 <? 10) with true by (symmetry; apply Z.ltb_lt; lia).
      replace (m - 3 + 3) with m by lia.
      rewrite (proj2 (Z.leb_gt m 2)) by lia. repeat f_equal. lia.
  - subst mp. destruct (Z.leb_spec m 2); lia.
Qed.

Lemma strftime_ymd_stamp (y m d h mi s : Z) :
  valid_date y m d -> 0 <= h < 24 -> 0 <= mi < 60 -> 0 <= s < 60 ->
  strftime_ymd (stamp y m d h mi s) = iso_date y m d.
Proof.
  intros Hv Hh Hmi Hs. unfold strftime_ymd.
  assert (stamp y m d h mi s / ns_per_day = days_from_civil y m d) as ->.
  { unfold stamp, ns_per_day, ns_per_second.
    generalize (days_from_civil y m d) as n. intros n.
    rewrite Z.div_mul_cancel_r by lia. Z.div_mod_to_equations. lia. }
  rewrite (civil_round_trip y m d Hv). reflexivity.
Qed.

(** X15: a cell that holds a valid date in canonical YYYY-MM-DD form, one a
    timestamp can hold, is resolved and the date text the chart gets for it
    ([strftime('%Y-%m-%d')], the Finish of its task) is the text of the
    cell again. *)
Theorem canonical_cell_finish_text (y m d : Z) :
  valid_date y m d -> in_bounds (stamp y m d 0 0 0) = true ->
  exists t,
    parse_date (Str (iso_date y m d)) = Ret (Ts t) /\
    date_text (Ts t) = iso_date y m d.
Proof.
  intros Hv Hin. exists (stamp y m d 0 0 0).
  split; [|apply strftime_ymd_stamp; (assumption || lia)].
  assert (1 <= y <= 9999) as Hy
    by (pose proof (in_bounds_year y m d 0 0 0 Hv
                      ltac:(lia) ltac:(lia) ltac:(lia) Hin); lia).
  pose proof (iso_format_reads y m d ltac:(lia) Hv) as Hread.
  rewrite build_ok in Hread by (assumption || lia).
  destruct (date_digits 45 y m d ltac:(lia) Hv)
    as (a & b & c & e & f & g & h & i & E & (?&?&?&?&_) & (?&?&_) & (?&?&_)).
  unfold iso_date in *. rewrite E in *. unfold digitc in *.
  rewrite (plain_text_later_rules a i _ [a; b; c; e; 45; f; g; 45; h]);
    [ | reflexivity | apply is_space_ascii_digit; unfold digitc; lia ..
      | repeat constructor; lia ].
  unfold later_rules. cbn [is_year is_year_month at_end].
  change (45 =? 46) with false. rewrite !andb_false_r.
  unfold date_formats. cbn [try_formats]. rewrite Hread. reflexivity.
Qed.

Lemma canonical_cell_finish_text_witness :
  exists t,
    parse_date (Str (iso_date 2024 2 29)) = Ret (Ts t) /\
    date_text (Ts t) = iso_date 2024 2 29.
Proof.
  apply canonical_cell_finish_text.
  - unfold valid_date. vm_compute. intuition discriminate.
  - vm_compute. reflexivity.
Defined.

(** ** The list of formats *)

(** A format listed a second time never decides anything. *)
Lemma try_formats_repeated (l1 l2 l3 : list str) (fmt : str) (s : str) :
  try_formats (l1 ++ fmt :: l2 ++ fmt :: l3) s
  = try_formats (l1 ++ fmt :: l2 ++ l3) s.
Proof.
  induction l1 as [|f1 l1 IH]; cbn [app try_formats].
  - destruct (to_datetime_format fmt s) as [dt|e] eqn:E; [reflexivity|].
    destruct e; cbn [isinstance_ValueError];
      (induction l2 as [|f2 l2 IH2]; cbn [app try_formats];
       [ rewrite E; reflexivity
       | destruct (to_datetime_format f2 s) as [dt|e2]; [reflexivity|];
         destruct e2; exact IH2 ]).
  - destruct (to_datetime_format f1 s) as [dt|e]; [reflexivity|].
    destruct e; exact IH.
Qed.

(** X16: the tenth entry of [date_formats] repeats the fourth
    ([%Y.%m.%d %H:%M]) and never decides a cell: on every text the battery
    gives the same result without it. *)
Theorem tenth_format_is_dead (s : str) :
  try_formats date_formats s
  = try_formats
      [u "%Y-%m-%d"; u "%Y.%m.%d"; u "%Y-%m-%d %H:%M"; u "%Y.%m.%d %H:%M";
       u "%Y-%m-%d %p %I:%M"; u "%Y.%m.%d %p %I:%M"; u "%Y-%m-%d %H:%M:%S";
       u "%Y.%m.%d %H:%M:%S"; u "%Y. %m. %d. %H:%M"; u "%Y.%m.%d.%H"] s.
Proof.
  exact (try_formats_repeated
           [u "%Y-%m-%d"; u "%Y.%m.%d"; u "%Y-%m-%d %H:%M"]
           [u "%Y-%m-%d %p %I:%M"; u "%Y.%m.%d %p %I:%M";
            u "%Y-%m-%d %H:%M:%S"; u "%Y.%m.%d %H:%M:%S"; u "%Y. %m. %d. %H:%M"]
           [u "%Y.%m.%d.%H"] (u "%Y.%m.%d %H:%M") s).
Qed.

(** ** Keywords of the column resolver *)

Lemma mentions_same_keywords (lower : str -> str) (ks ks' : list str) (col : cell) :
  (forall k, In k ks <-> In k ks') ->
  mentions lower ks col = mentions lower ks' col.
Proof.
  intros H. unfold mentions.
  destruct (existsb _ ks) eqn:E1; destruct (existsb _ ks') eqn:E2; try reflexivity.
  - apply existsb_exists in E1 as [k [Hk Hc]].
    assert (existsb (fun keyword =>
              contains (lower keyword) (lower (label_text col))) ks' = true)
      by (apply existsb_exists; exists k; split; [apply H; exact Hk | exact Hc]).
    congruence.
  - apply existsb_exists in E2 as [k [Hk Hc]].
    assert (existsb (fun keyword =>
              contains (lower keyword) (lower (label_text col))) ks = true)
      by (apply existsb_exists; exists k; split; [apply H; exact Hk | exact Hc]).
    congruence.
Qed.

(** X17: the order of the keywords, and their repetition, give no
    priority: two keyword lists with the same members select the same
    column, the first one in the table that holds any of them. *)
Theorem find_column_keyword_order (lower : str -> str)
    (columns : list cell) (ks ks' : list str) :
  (forall k, In k ks <-> In k ks') ->
  find_column lower columns ks = find_column lower columns ks'.
Proof.
  intros H. induction columns as [|col columns IH]; [reflexivity|].
  cbn [find_column]. rewrite (mentions_same_keywords lower ks ks' col H).
  destruct (mentions lower ks' col); [reflexivity | exact IH].
Qed.

Lemma find_column_keyword_order_witness :
  find_column (fun s => s) [Str (u "종료일"); Str (u "제출일")]
    [u "제출일"; u "종료일"]
  = find_column (fun s => s) [Str (u "종료일"); Str (u "제출일")]
      [u "종료일"; u "제출일"; u "종료일"].
Proof.
  apply find_column_keyword_order.
  intros k. cbn [In]. tauto.
Defined.

(** ** What follows the date of a before-cell *)

Lemma rstrip_keeps_tail (s post : str) (c : char) :
  is_space c = false -> rstrip post = post ->
  rstrip (s ++ [c] ++ post) = s ++ [c] ++ post.
Proof.
  intros Hc Hpost. destruct post as [|p0 post'].
  - cbn [app]. apply rstrip_last. exact Hc.
  - assert (lstrip (rev (p0 :: post')) = rev (p0 :: post')) as Hl.
    { unfold rstrip in Hpost. rewrite <- Hpost at 2. rewrite rev_involutive.
      reflexivity. }
    unfold rstrip. rewrite app_assoc, rev_app_distr, lstrip_app, Hl.
    destruct (rev (p0 :: post')) as [|x r] eqn:Er.
    + apply (f_equal (@List.length Z)) in Er. rewrite length_rev in Er.
      discriminate.
    + rewrite <- Er, <- rev_app_distr, rev_involutive, <- app_assoc. reflexivity.
Qed.

(** X18: the before rule reads the first date in YYYY-MM-DD form and
    nothing else: whatever follows the date in the cell (a time of day, a
    meridiem marker, a second date) changes nothing, the cell resolves to
    midnight of the day before. *)
Theorem before_marker_ignores_what_follows (y m d : Z) (sep post : str) :
  valid_date y m d ->
  in_bounds (stamp y m d 0 0 0) = true ->
  in_bounds (midnight_before y m d) = true ->
  Forall (fun c => is_digit c = false) sep ->
  rstrip post = post ->
  parse_date (Str (u "이전" ++ sep ++ iso_date y m d ++ post))
  = Ret (Ts (midnight_before y m d)).
Proof.
  intros Hv Hb Hb' Hsep Hpost.
  assert (0 <= y <= 9999) as Hy
    by (pose proof (in_bounds_year y m d 0 0 0 Hv
                      ltac:(lia) ltac:(lia) ltac:(lia) Hb); lia).
  pose proof (to_datetime_reads y m d Hy Hv) as Hread.
  rewrite (midnight_before_one_day y m d Hv) in *.
  destruct (date_digits 45 y m d Hy Hv)
    as (a & b & c & e & f & g & h & i & E & (?&?&?&?&Ey) & (?&?&Em) & (?&?&Ed)).
  unfold iso_date in *. rewrite E in *.
  change (u "이전") with [51060; 51204].
  assert (Es : strip ([51060; 51204] ++ sep ++ [a; b; c; e; 45; f; g; 45; h; i] ++ post)
               = (51060 :: 51204 :: sep) ++ [a; b; c; e; 45; f; g; 45; h; i] ++ post).
  { assert (Ex : [51060; 51204] ++ sep ++ [a; b; c; e; 45; f; g; 45; h; i] ++ post
                 = (51060 :: 51204 :: sep ++ [a; b; c; e; 45; f; g; 45; h])
                   ++ [i] ++ post)
      by (cbn [app]; rewrite <- app_assoc; reflexivity).
    unfold strip. cbn [app]. rewrite lstrip_head by reflexivity.
    cbn [app] in Ex. rewrite Ex.
    exact (rstrip_keeps_tail
             (51060 :: 51204 :: sep ++ [a; b; c; e; 45; f; g; 45; h]) post i
             (is_space_ascii_digit i ltac:(assumption)) Hpost). }
  set (T := (51060 :: 51204 :: sep) ++ [a; b; c; e; 45; f; g; 45; h; i] ++ post)
    in *.
  assert (Hsent : existsb (str_eqb T) sentinels = false)
    by (subst T; rewrite <- !app_comm_cons; apply not_sentinel_head; lia).
  assert (Hcont : contains [51060; 51204] T = true)
    by (subst T; rewrite <- !app_comm_cons; cbn [contains starts_with];
        rewrite !Z.eqb_refl; reflexivity).
  assert (Hsearch : search (date_at 45) T = Some [a; b; c; e; 45; f; g; 45; h; i]).
  { subst T. rewrite search_date_skip
      by (constructor; [reflexivity | constructor; [reflexivity | exact Hsep]]).
    cbn [app]. apply search_date_here; assumption. }
  cbn [parse_date]. rewrite Es, Hsent.
  unfold before_rule. change (u "이전") with [51060; 51204].
  rewrite Hcont, Hsearch, Hread, build_ok by (assumption || lia).
  cbn [bind]. unfold ts_sub. rewrite timedelta_one_day, Hb'. reflexivity.
Qed.

Lemma before_marker_ignores_what_follows_witness :
  parse_date (Str (u "이전" ++ [32] ++ iso_date 2024 3 1 ++ u " 오후 3시 (2024-04-01 연장)"))
  = Ret (Ts (midnight_before 2024 3 1)).
Proof.
  apply (before_marker_ignores_what_follows 2024 3 1 [32]).
  - unfold valid_date. vm_compute. intuition discriminate.
  - vm_compute. reflexivity.
  - vm_compute. reflexivity.
  - repeat constructor.
  - vm_compute. reflexivity.
Defined.

(** ** A 12-hour time with AM or PM *)

Section DateCellRejects.

Variables (sep y m d : Z) (a b c e f g h i : char).
Hypothesis Hsep : sep < 48.
Hypotheses (Ha : digitc a) (Hb : digitc b) (Hc : digitc c) (He : digitc e).
Hypotheses (Hf : digitc f) (Hg : digitc g) (Hh : digitc h) (Hi : digitc i).

(** A format that starts with the date fails when its rest fails after the
    date, and cannot start at the second digit of the day either. *)
Lemma run_date_rejects (rest : list directive) (tail : str) :
  (forall fl, run rest fl tail = None) ->
  (forall fl, run rest fl (i :: tail) = None) ->
  run (pY :: lit sep :: pm :: lit sep :: pd :: rest) no_fields
      (a :: b :: c :: e :: sep :: f :: g :: sep :: h :: i :: tail)
  = None.
Proof.
  intros H2 H1. cbn [run]. rewrite re_Y_ok by assumption. rewrite Z.eqb_refl.
  apply re_m_none; try assumption.
  - rewrite Z.eqb_refl. apply re_d_none; try assumption; [apply H2 | apply H1].
  - unfold digitc in Hg. rewrite (proj2 (Z.eqb_neq g sep)) by lia. reflexivity.
Qed.

End DateCellRejects.

(** X19: a valid date in dashes or dots, a blank, AM or PM in either case,
    a blank and a 12-hour time [hh:mm] resolve through the fifth or sixth
    format of the battery to the moment the 12-hour clock names: 12 AM is
    hour 0, 12 PM is hour 12, the other PM hours are moved by twelve. *)
Theorem english_meridiem_time (sep y m d hh mm x mc : Z) (afternoon : bool) :
  sep = 45 \/ sep = 46 ->
  (if afternoon then x = 80 \/ x = 112 else x = 65 \/ x = 97) ->
  mc = 77 \/ mc = 109 ->
  valid_date y m d -> 1 <= hh <= 12 -> 0 <= mm <= 59 ->
  in_bounds (stamp y m d (hour12 hh (Some afternoon)) mm 0) = true ->
  parse_date
    (Str (d4 y ++ [sep] ++ d2 m ++ [sep] ++ d2 d ++ [32; x; mc; 32]
          ++ clock hh mm))
  = Ret (Ts (stamp y m d (hour12 hh (Some afternoon)) mm 0)).
Proof.
  intros Hsep Hx Hmc Hv Hh Hmm Hin. pose proof Hv as [Hm Hd].
  pose proof (days_in_month_bounds y m Hm).
  assert (0 <= hour12 hh (Some afternoon) < 24) as Hh24
    by (unfold hour12; destruct afternoon; destruct (Z.eqb_spec hh 12); lia).
  assert (1 <= y <= 9999) as Hy
    by (pose proof (in_bounds_year y m d _ mm 0 Hv
                      Hh24 ltac:(lia) ltac:(lia) Hin); lia).
  pose proof (build_ok y m d _ mm 0 Hv ltac:(lia) Hin) as Hbuild.
  destruct (date_digits sep y m d ltac:(lia) Hv)
    as (a & b & c & e & f & g & h & i & E & (?&?&?&?&Ey) & (?&?&Em) & (?&?&Ed)).
  destruct (d2_digits hh) as (p & q & Ehh & Hp & Hq & Eh); [lia|].
  destruct (d2_digits mm) as (v & w & Emm & Hv' & Hw & Emi); [lia|].
  assert (d4 y ++ [sep] ++ d2 m ++ [sep] ++ d2 d ++ [32; x; mc; 32] ++ clock hh mm
          = a :: b :: c :: e :: sep :: f :: g :: sep :: h :: i
              :: [32; x; mc; 32; p; q; 58; v; w]) as ->.
  { unfold clock. rewrite Ehh, Emm.
    change ([32; x; mc; 32] ++ [p; q] ++ [58] ++ [v; w])
      with ([] ++ [32; x; mc; 32; p; q; 58; v; w]).
    rewrite !app_assoc. rewrite !app_assoc in E. rewrite E. reflexivity. }
  assert (a <> 78 /\ a <> 110) as [Ha78 Ha110] by (unfold digitc in *; lia).
  assert (Hxs : is_space x = false)
    by (destruct afternoon; destruct Hx as [-> | ->]; reflexivity).
  assert (Hps : is_space p = false) by (apply is_space_ascii_digit; assumption).
  assert (His : is_space i = false) by (apply is_space_ascii_digit; assumption).
  (* the formats with a 24-hour time stop at the letters *)
  assert (Hrej : forall s0, s0 < 48 -> 
            run [pY; lit s0; pm; lit s0; pd; ws; pH; lit 58; pM] no_fields
                (a :: b :: c :: e :: s0 :: f :: g :: s0 :: h :: i
                   :: [32; x; mc; 32; p; q; 58; v; w]) = None).
  { intros s0 Hs0. apply run_date_rejects; try assumption.
    - intros fl. cbn [run]. unfold ws_plus. change (is_space 32) with true.
      cbn [ws_star]. rewrite Hxs.
      destruct afternoon; destruct Hx as [-> | ->]; reflexivity.
    - intros fl. cbn [run]. unfold ws_plus. rewrite His. reflexivity. }
  (* the formats with a meridiem read the whole text *)
  assert (Hacc : run [ws; pp; ws; pI; lit 58; pM]
                     (mkFields y m d None None 0 0 None)
                     [32; x; mc; 32; p; q; 58; v; w]
                 = Some (mkFields y m d None (Some hh) mm 0 (Some afternoon), [])).
  { cbn [run]. apply ws_plus_one; [exact Hxs|]. cbn [run]. unfold re_p.
    assert (((mc =? 109) || (mc =? 77)) = true) as ->
      by (destruct Hmc as [-> | ->]; reflexivity).
    destruct afternoon; destruct Hx as [-> | ->]; zbool; cbn [orb].
    all: cbn [run]; apply ws_plus_one; [exact Hps|].
    all: apply (re_m_ok _ _ p q hh); try assumption.
    all: cbn [run]; rewrite Z.eqb_refl.
    all: apply (re_M_ok _ _ v w mm); try assumption; reflexivity. }
  unfold digitc in *.
  destruct Hsep as [-> | ->].
  - rewrite (plain_text_later_rules a w _
      [a; b; c; e; 45; f; g; 45; h; i; 32; x; mc; 32; p; q; 58; v]);
      [ | reflexivity | apply is_space_ascii_digit; unfold digitc; lia ..
        | destruct afternoon; destruct Hx as [-> | ->];
          destruct Hmc as [-> | ->]; repeat constructor; lia ].
    unfold later_rules. cbn [is_year is_year_month at_end].
    rewrite !andb_false_r.
    unfold date_formats. cbn [try_formats].
    rewrite (to_datetime_format_leftover (u "%Y-%m-%d") a _
               (mkFields y m d None None 0 0 None) 32
               [x; mc; 32; p; q; 58; v; w] Ha78 Ha110)
      by (format_known;
          apply (run_date_then 45 y m d a b c e f g h i); auto; lia).
    cbn [isinstance_ValueError].
    rewrite (to_datetime_format_no_match (u "%Y.%m.%d") a _ Ha78 Ha110)
      by (format_known; apply run_other_separator; auto; lia).
    cbn [isinstance_ValueError].
    rewrite (to_datetime_format_no_match (u "%Y-%m-%d %H:%M") a _ Ha78 Ha110)
      by (format_known; apply Hrej; lia).
    cbn [isinstance_ValueError].
    rewrite (to_datetime_format_no_match (u "%Y.%m.%d %H:%M") a _ Ha78 Ha110)
      by (format_known; apply run_other_separator; auto; lia).
    cbn [isinstance_ValueError].
    rewrite (to_datetime_format_whole (u "%Y-%m-%d %p %I:%M") a _
               (mkFields y m d None (Some hh) mm 0 (Some afternoon)) Ha78 Ha110)
      by (format_known;
          apply (run_date_then 45 y m d a b c e f g h i); auto; lia).
    cbn [fY fm fd fM fS hour_field fI fH fp]. rewrite Hbuild. reflexivity.
  - rewrite (plain_text_later_rules a w _
      [a; b; c; e; 46; f; g; 46; h; i; 32; x; mc; 32; p; q; 58; v]);
      [ | reflexivity | apply is_space_ascii_digit; unfold digitc; lia ..
        | destruct afternoon; destruct Hx as [-> | ->];
          destruct Hmc as [-> | ->]; repeat constructor; lia ].
    unfold later_rules. cbn [is_year is_year_month at_end].
    rewrite !andb_false_r.
    unfold date_formats. cbn [try_formats].
    rewrite (to_datetime_format_no_match (u "%Y-%m-%d") a _ Ha78 Ha110)
      by (format_known; apply run_other_separator; auto; lia).
    cbn [isinstance_ValueError].
    rewrite (to_datetime_format_leftover (u "%Y.%m.%d") a _
               (mkFields y m d None None 0 0 None) 32
               [x; mc; 32; p; q; 58; v; w] Ha78 Ha110)
      by (format_known;
          apply (run_date_then 46 y m d a b c e f g h i); auto; lia).
    cbn [isinstance_ValueError].
    rewrite (to_datetime_format_no_match (u "%Y-%m-%d %H:%M") a _ Ha78 Ha110)
      by (format_known; apply run_other_separator; auto; lia).
    cbn [isinstance_ValueError].
    rewrite (to_datetime_format_no_match (u "%Y.%m.%d %H:%M") a _ Ha78 Ha110)
      by (format_known; apply Hrej; lia).
    cbn [isinstance_ValueError].
    rewrite (to_datetime_format_no_match (u "%Y-%m-%d %p %I:%M") a _ Ha78 Ha110)
      by (format_known; apply run_other_separator; auto; lia).
    cbn [isinstance_ValueError].
    rewrite (to_datetime_format_whole (u "%Y.%m.%d %p %I:%M") a _
               (mkFields y m d None (Some hh) mm 0 (Some afternoon)) Ha78 Ha110)
      by (format_known;
          apply (run_date_then 46 y m d a b c e f g h i); auto; lia).
    cbn [fY fm fd fM fS hour_field fI fH fp]. rewrite Hbuild. reflexivity.
Qed.

Lemma english_meridiem_time_witness :
  parse_date (Str (d4 2024 ++ [45] ++ d2 3 ++ [45] ++ d2 15 ++ [32; 80; 77; 32]
                   ++ clock 1 30))
  = Ret (Ts (stamp 2024 3 15 (hour12 1 (Some true)) 30 0)).
Proof.
  apply (english_meridiem_time 45 2024 3 15 1 30 80 77 true).
  - left. reflexivity.
  - left. reflexivity.
  - left. reflexivity.
  - unfold valid_date. vm_compute. intuition discriminate.
  - lia.
  - lia.
  - vm_compute. reflexivity.
Defined.
